(** * People_Daily_Toolkit: a shallow embedding of [rmrb_down.py] and
      [note_for_rmrb.py]

    The two scripts are glue around three black boxes: the HTTP client, the
    HTML parser and the PDF library.  The black boxes are modelled by an
    environment of oracles; everything the scripts themselves decide (the
    order of the calls, what is caught, what is appended, what is returned)
    is modelled as executable definitions. *)

From Stdlib Require Import Ascii String Decimal DecimalString DecimalNat.
From stdpp Require Import base option list strings gmap.

(** ** Python values shared by both scripts *)

Module Py.

(** The exceptions the scripts tell apart: [main] of [note_for_rmrb.py] has
    one handler for [FileNotFoundError] and one for every other
    [Exception].  These are the exceptions an [except Exception] catches;
    interrupts and exits are not part of the model. *)
Inductive error : Type :=
| FileNotFoundError (path : string)
| Exception (msg : string).

(** A Python call either returns a value or raises. *)
Inductive exn (A : Type) : Type :=
| Ok (a : A)
| Raise (e : error).
Arguments Ok {A} a.
Arguments Raise {A} e.

Definition is_ok {A} (r : exn A) : bool :=
  match r with Ok _ => true | Raise _ => false end.

(** [sep.join(xs)] *)
Fixpoint join (sep : string) (xs : list string) : string :=
  match xs with
  | [] => ""
  | [x] => x
  | x :: rest => x +:+ sep +:+ join sep rest
  end.

(** [s.split(c)] for a one-character separator [c]: the segments between
    the occurrences of [c]; the empty string gives one empty segment. *)
Fixpoint split (c : ascii) (s : string) : list string :=
  match s with
  | EmptyString => [""]
  | String a rest =>
      if Ascii.eqb a c then "" :: split c rest
      else match split c rest with
           | [] => [String a ""]
           | seg :: segs => String a seg :: segs
           end
  end.

(** The number of occurrences of the character [c] in [s]. *)
Fixpoint count_char (c : ascii) (s : string) : nat :=
  match s with
  | EmptyString => 0
  | String a rest => (if Ascii.eqb a c then 1 else 0) + count_char c rest
  end.

(** [s.startswith(p)] *)
Fixpoint startswith (p s : string) : bool :=
  match p, s with
  | EmptyString, _ => true
  | String a p', String b s' => Ascii.eqb a b && startswith p' s'
  | String _ _, EmptyString => false
  end.

(** [p in s] *)
Fixpoint contains (p s : string) : bool :=
  startswith p s ||
  match s with
  | EmptyString => false
  | String _ s' => contains p s'
  end.

(** [s.endswith(p)] *)
Fixpoint endswith (p s : string) : bool :=
  (String.eqb p s) ||
  match s with
  | EmptyString => false
  | String _ s' => endswith p s'
  end.

End Py.

Export Py.

(** ** note_for_rmrb.py *)

Module NoteForRmrb.

Definition LF : ascii := "010"%char.
Definition NL : string := String LF "".

(** *** read_pdf *)

(** A page of a [PdfReader]: all [read_pdf] does with it is to call
    [extract_text()], which returns a string, returns [None], or raises. *)
Record PageObject : Type := { extract_text : exn (option string) }.

(** [page.extract_text() or ""]: [None] and the empty string are falsy. *)
Definition text_or_empty (t : option string) : string :=
  match t with
  | Some s => if String.eqb s "" then "" else s
  | None => ""
  end.

(** The generator [page.extract_text() or "" for page in reader.pages],
    consumed by [join]: pages are visited in order and the first exception
    ends the iteration. *)
Fixpoint page_texts (pages : list PageObject) : exn (list string) :=
  match pages with
  | [] => Ok []
  | p :: rest =>
      match extract_text p with
      | Raise e => Raise e
      | Ok t =>
          match page_texts rest with
          | Raise e => Raise e
          | Ok ts => Ok (text_or_empty t :: ts)
          end
      end
  end.

(** [read_pdf(pdf_path)]; the argument is the outcome of
    [PdfReader(pdf_path)]: the list [reader.pages], or the exception the
    constructor raised. *)
Definition read_pdf (reader : exn (list PageObject)) : exn string :=
  match reader with
  | Raise e => Raise e
  | Ok pages =>
      match page_texts pages with
      | Raise e => Raise e
      | Ok ts => Ok (join NL ts)
      end
  end.

(** *** extract_info: the loop over the streamed response *)

(** An attribute of [choice.delta]: missing ([hasattr] is false), [None],
    or a string. *)
Inductive attr : Type :=
| Absent
| PyNone
| PyStr (s : string).

(** [hasattr(delta, name) and delta.name] as a condition. *)
Definition truthy (a : attr) : bool :=
  match a with
  | PyStr s => negb (String.eqb s "")
  | _ => false
  end.

Definition attr_str (a : attr) : string :=
  match a with PyStr s => s | _ => "" end.

Record Delta : Type := { reasoning_content : attr; content : attr }.
Record Choice : Type := { delta : Delta }.
(** [chunk.choices] is a list or [None]. *)
Record Chunk : Type := { choices : option (list Choice) }.

(** The state of the loop: what [print] has written so far (one entry per
    call, in order) and the accumulator [mycontent]. *)
Record LoopState : Type := { stdout : list string; mycontent : string }.

(** One iteration of [for chunk in chat_completion]. *)
Definition step (st : LoopState) (chunk : Chunk) : LoopState :=
  match choices chunk with
  | None | Some [] => st                                   (* continue *)
  | Some (choice :: _) =>
      let d := delta choice in
      if truthy (reasoning_content d) then
        {| stdout := stdout st ++ [attr_str (reasoning_content d)];
           mycontent := mycontent st |}
      else if truthy (content d) then
        {| stdout := stdout st ++ [attr_str (content d)];
           mycontent := mycontent st +:+ attr_str (content d) |}
      else st
  end.

Definition init : LoopState := {| stdout := []; mycontent := "" |}.

Definition run (chunks : list Chunk) : LoopState := foldl step init chunks.

(** How the iteration over the response ends: the stream is exhausted, or
    the transport raises after the chunks delivered so far. *)
Inductive StreamEnd : Type :=
| EndOfStream
| StreamError (e : error).

(** [extract_info(content)] given the outcome of
    [client.chat.completions.create(...)]: an exception, or the finite
    stream of chunks and how it ends.  Nothing is caught. *)
Definition extract_info (response : exn (list Chunk * StreamEnd)) : exn string :=
  match response with
  | Raise e => Raise e
  | Ok (chunks, EndOfStream) => Ok (mycontent (run chunks))
  | Ok (chunks, StreamError e) => Raise e
  end.

(** Fragments as the stream delivers them in the usual case. *)
Definition chunk_of (r c : attr) : Chunk :=
  {| choices := Some [ {| delta := {| reasoning_content := r; content := c |} |} ] |}.
Definition reasoning (s : string) : Chunk := chunk_of (PyStr s) PyNone.
Definition answer (s : string) : Chunk := chunk_of PyNone (PyStr s).

(** The answer content a chunk carries (of its first choice, the only one
    the loop looks at). *)
Definition answer_content (chunk : Chunk) : string :=
  match choices chunk with
  | Some (choice :: _) => attr_str (content (delta choice))
  | _ => ""
  end.

Definition carries_reasoning (chunk : Chunk) : bool :=
  match choices chunk with
  | Some (choice :: _) => truthy (reasoning_content (delta choice))
  | _ => false
  end.

Definition carries_answer (chunk : Chunk) : bool :=
  match choices chunk with
  | Some (choice :: _) => truthy (content (delta choice))
  | _ => false
  end.

(** The concatenation of a list of strings, in order. *)
Definition concat_str (xs : list string) : string := foldr String.append "" xs.

(** *** main *)

(** What [main] meets outside: the two dates, the PDF library, the
    service and the report file. *)
Record NoteEnv : Type := {
  (** the module's [date_str], computed when the module is loaded *)
  date_str : string;
  (** [datetime.now().strftime("%Y-%m-%d")] inside [main] *)
  current_date : string;
  (** [PdfReader(pdf_path)] *)
  open_pdf : string -> exn (list PageObject);
  (** [client.chat.completions.create(...)] for a user message, with the
      stream it gives *)
  chat : string -> exn (list Chunk * StreamEnd);
  (** what the block [with open(output_filename, "w", encoding="utf-8")]
      raises, if anything, when it prints the text to the file *)
  save_report : string -> string -> option error
}.

(** What [main] and [extract_info] print, in order. *)
Inductive output : Type :=
| OutReading (rmrb_pdf_file : string)
| OutExtracted (text : string)          (* prints [len(content)] *)
| OutAnalysing
| OutStream (s : string)                (* a [print] of [extract_info] *)
| OutAnalysed
| OutSaved (output_filename : string)
| OutNotFound (rmrb_pdf_file : string)  (* first line of the first handler *)
| OutNamingHint
| OutError (e : error)                  (* first line of the second handler *)
| OutCheckHint.

(** The two [except] clauses. *)
Definition handle (rmrb_pdf_file : string) (e : error) : list output :=
  match e with
  | FileNotFoundError _ => [OutNotFound rmrb_pdf_file; OutNamingHint]
  | Exception _ => [OutError e; OutCheckHint]
  end.

(** What [extract_info] has printed when it returns or raises. *)
Definition streamed (response : exn (list Chunk * StreamEnd)) : list output :=
  match response with
  | Ok (chunks, _) => OutStream <$> stdout (run chunks)
  | Raise _ => []
  end.

Record MainResult : Type := {
  printed : list output;
  (** the report file, with its text, when the block that writes it has
      completed *)
  report : option (string * string)
}.

(** [f"rmrb_{date_str}.pdf"] and [f"人民日报_{current_date}.md"] *)
Definition rmrb_pdf_file_of (env : NoteEnv) : string :=
  "rmrb_" +:+ date_str env +:+ ".pdf".
Definition output_filename_of (env : NoteEnv) : string :=
  "人民日报_" +:+ current_date env +:+ ".md".

Definition main (env : NoteEnv) : MainResult :=
  let rmrb_pdf_file := rmrb_pdf_file_of env in
  match read_pdf (open_pdf env rmrb_pdf_file) with
  | Raise e =>
      {| printed := OutReading rmrb_pdf_file :: handle rmrb_pdf_file e;
         report := None |}
  | Ok text =>
      let response := chat env text in
      let so_far := [OutReading rmrb_pdf_file; OutExtracted text; OutAnalysing]
                    ++ streamed response in
      match extract_info response with
      | Raise e => {| printed := so_far ++ handle rmrb_pdf_file e; report := None |}
      | Ok markdown_note =>
          let output_filename := output_filename_of env in
          (* print(markdown_note, file=file) writes the note and a newline *)
          let written := markdown_note +:+ NL in
          match save_report env output_filename written with
          | Some e =>
              {| printed := so_far ++ OutAnalysed :: handle rmrb_pdf_file e;
                 report := None |}
          | None =>
              {| printed := so_far ++ [OutAnalysed; OutSaved output_filename];
                 report := Some (output_filename, written) |}
          end
      end
  end.

(** A run of [main] for the witnesses: one page, a stream of two answers
    that ends as [ending] says, and a report file that is saved or not. *)
Definition note_env (ending : StreamEnd) (refused : option error) : NoteEnv :=
  {| date_str := "2025-01-01";
     current_date := "2025-01-02";
     open_pdf := fun _ => Ok [ {| extract_text := Ok (Some "news") |} ];
     chat := fun _ => Ok ([answer "Hello"; answer " world"], ending);
     save_report := fun _ _ => refused |}.

(** *** Functions used to state the properties *)

(** A page whose [extract_text()] returns [t]. *)
Definition page_of (t : option string) : PageObject := {| extract_text := Ok t |}.

(** The chunks whose first choice carries no reasoning content: the ones
    the [elif] branch can see. *)
Definition answer_only (chunks : list Chunk) : list Chunk :=
  List.filter (fun chunk => negb (carries_reasoning chunk)) chunks.

(** A chunk whose first choice carries both kinds of content. *)
Definition both (r c : string) (others : list Choice) : Chunk :=
  {| choices := Some ({| delta := {| reasoning_content := PyStr r;
                                     content := PyStr c |} |} :: others) |}.

End NoteForRmrb.

(** ** rmrb_down.py *)

Module RmrbDown.

(** *** String helpers of the script *)

(** A character is a code point below 256.  Among these the decimal
    digits, which are what [\d] matches and [int] converts, are the ASCII
    digits; text with code points beyond 255, where Python knows further
    decimal digits, is not represented. *)
Definition is_digit (c : ascii) : bool :=
  let n := nat_of_ascii c in ((48 <=? n) && (n <=? 57))%nat.

(** The value of a string of ASCII decimal digits. *)
Definition int_of_digits (s : list ascii) : nat :=
  foldl (fun acc c => 10 * acc + (nat_of_ascii c - 48)) 0 s.

(** The most digits [int] converts (CPython's default, since 3.11). *)
Definition int_max_str_digits : nat := 4300.

(** [int(s)] for a string of ASCII decimal digits: [ValueError] when
    there are more digits than the limit. *)
Definition int_of_str (s : list ascii) : exn nat :=
  if (int_max_str_digits <? length s)%nat then Raise (Exception "ValueError")
  else Ok (int_of_digits s).
Arguments int_of_str : simpl never.

(** The longest run of digits at the start of [s], and what follows it. *)
Fixpoint span_digits (s : string) : list ascii * string :=
  match s with
  | EmptyString => ([], EmptyString)
  | String c rest =>
      if is_digit c then
        let '(ds, tl) := span_digits rest in (c :: ds, tl)
      else ([], s)
  end.

Fixpoint drop_str (n : nat) (s : string) : string :=
  match n, s with
  | 0, _ => s
  | S n', String _ rest => drop_str n' rest
  | S _, EmptyString => EmptyString
  end.

(** A match of [node_(\d+)\.html] anchored at the start of [s]: [\d+] is
    greedy, and giving digits back cannot help since a digit is never the
    dot, so the group is the longest run of digits. *)
Definition match_node_here (s : string) : option (list ascii) :=
  if startswith "node_" s then
    let '(ds, tl) := span_digits (drop_str 5 s) in
    match ds with
    | [] => None
    | _ :: _ => if startswith ".html" tl then Some ds else None
    end
  else None.

(** [re.search(r'node_(\d+)\.html', s)]: the leftmost match; the result is
    [match.group(1)]. *)
Fixpoint re_search_node (s : string) : option (list ascii) :=
  match match_node_here s with
  | Some ds => Some ds
  | None =>
      match s with
      | EmptyString => None
      | String _ rest => re_search_node rest
      end
  end.

(** [str(n)] *)
Definition str_of_nat (n : nat) : string :=
  NilEmpty.string_of_uint (Nat.to_uint n).

(** [f"{n:02d}"] *)
Definition fmt02 (n : nat) : string :=
  let s := str_of_nat n in
  if (String.length s <? 2)%nat then "0" +:+ s else s.

(** [s.rstrip('/')] *)
Fixpoint rstrip_slash (s : string) : string :=
  match s with
  | EmptyString => EmptyString
  | String c rest =>
      match rstrip_slash rest with
      | EmptyString => if Ascii.eqb c "/" then EmptyString else String c EmptyString
      | r => String c r
      end
  end.

(** [p[:p.rfind('/') + 1]] *)
Fixpoint upto_last_slash (p : string) : string :=
  match p with
  | EmptyString => EmptyString
  | String c rest =>
      if contains "/" p then String c (upto_last_slash rest) else EmptyString
  end.

Fixpoint all_slashes (s : string) : bool :=
  match s with
  | EmptyString => true
  | String c rest => Ascii.eqb c "/" && all_slashes rest
  end.

(** [os.path.dirname(p)], as [posixpath] defines it. *)
Definition dirname (p : string) : string :=
  let head := upto_last_slash p in
  if negb (String.eqb head "") && negb (all_slashes head)
  then rstrip_slash head else head.

(** *** The outside world *)

(** [requests.Response]: the decoded text and the raw body. *)
Record Response : Type := { text : string; content : list Byte.byte }.

(** An [<a>] element of the parsed page; [href] is [None] when the
    attribute is missing. *)
Record Anchor : Type := { href : option string }.

(** The identity of a call to the outside world: the call site and, inside
    a loop, the iteration.  A run of [download_rmrb_pdf] makes each call at
    most once, so fixing the outcome per call leaves the environment free
    to answer the same URL or path differently at different moments. *)
Inductive call : Type :=
| CatalogGet                (* requests.get in get_page_count *)
| PageGet (i : nat)         (* requests.get in get_pdf_urls, page i *)
| PdfGet (i : nat)          (* requests.get in download_pdfs, index i *)
| Makedirs                  (* os.makedirs(temp_dir) *)
| OpenTemp (i : nat)        (* open(file_name, 'wb'), index i *)
| WriteTemp (i : nat)       (* f.write(response.content), index i *)
| ReadPdf (j : nat)         (* PdfReader(pdf_file), j-th file *)
| OpenOut                   (* open(output_file, 'wb') *)
| WriteOut                  (* pdf_writer.write(out) *)
| Remove (j : nat)          (* os.remove(file), j-th file *)
| Rmdir.                    (* os.rmdir(temp_dir) *)

(** The black boxes.  [Page] is the PDF library's page object. *)
Record Env (Page : Type) : Type := {
  (** [requests.get(url, timeout=...)]: a response or an exception *)
  http : call -> string -> exn Response;
  (** [BeautifulSoup(text, 'html.parser')]: the anchors in document order *)
  html_parser : string -> exn (list Anchor);
  (** a fault of the operating system at a file-system call: missing
      parent directory, permissions, directory not empty, ... *)
  os_fault : call -> option error;
  (** [PdfReader(..., strict=False)] on a file's bytes: an exception, or
      the pages, each of which may raise when it is read and added *)
  pdf_parse : list Byte.byte -> exn (list (exn Page));
  (** what [PdfWriter.write] produces for a list of pages *)
  pdf_serialize : list Page -> exn (list Byte.byte);
  (** [datetime.now().strftime('%Y-%m-%d')] *)
  today : string
}.
Arguments http {Page} _ _ _.
Arguments html_parser {Page} _ _.
Arguments os_fault {Page} _ _.
Arguments pdf_parse {Page} _ _.
Arguments pdf_serialize {Page} _ _.
Arguments today {Page} _.

(** What [print] writes, one constructor per [print] of the script. *)
Inductive message : Type :=
| MsgPageCountFailed (e : error)
| MsgPageCount (n : nat)
| MsgLinkFound (i : nat) (pdf_href : string)
| MsgLinkMissing (i : nat)
| MsgLinkFailed (i : nat) (e : error)
| MsgDownloadStart (i : nat)
| MsgDownloadDone (i : nat) (file_name : string)
| MsgDownloadFailed (i : nat) (e : error)
| MsgReadFailed (pdf_file : string) (e : error)
| MsgMergeDone (output_file : string)
| MsgMergeFailed (e : error)
| MsgRemoveFailed (file : string) (e : error)
| MsgRmdirFailed (temp_dir : string) (e : error)
| MsgStart (date_str : string)
| MsgNoLinks
| MsgAllDownloadsFailed
| MsgFinished (date_str : string).

(** What the script does to the outside world, in order. *)
Inductive event : Type :=
| EvGet (url : string) (timeout : nat)
| EvMakedirs (path : string)
| EvOpen (path : string)
| EvWrite (path : string)
| EvSleep (seconds : nat)
| EvPdfRead (path : string)
| EvRemove (path : string)
| EvRmdir (path : string)
| EvPrint (m : message).

(** The file system (regular files and directories) and the events so
    far, oldest first. *)
Record World : Type := {
  fs : gmap string (list Byte.byte);
  dirs : gset string;
  trace : list event
}.

(** The directory [path] holds nothing: no file and no directory lies
    under it. *)
Definition dir_is_empty (m : gmap string (list Byte.byte)) (ds : gset string)
    (path : string) : bool :=
  bool_decide (set_Forall (fun p => startswith (path +:+ "/") p = false)
                 (dom m ∪ ds)).

(** *** Computations that change the world and may raise *)

Definition M (A : Type) : Type := World -> exn A * World.

Definition ret {A} (a : A) : M A := fun w => (Ok a, w).
Definition raise {A} (e : error) : M A := fun w => (Raise e, w).
Definition bind {A B} (m : M A) (k : A -> M B) : M B :=
  fun w => match m w with
           | (Ok a, w') => k a w'
           | (Raise e, w') => (Raise e, w')
           end.
(** [try: body except Exception as e: handler]; what [body] did to the
    world before it raised stays done. *)
Definition try_except {A} (body : M A) (handler : error -> M A) : M A :=
  fun w => match body w with
           | (Ok a, w') => (Ok a, w')
           | (Raise e, w') => handler e w'
           end.

Notation "x <- m ;; k" := (bind m (fun x => k))
  (at level 100, m at next level, right associativity).
Notation "m ;;; k" := (bind m (fun _ => k))
  (at level 100, right associativity).

Definition emit (e : event) : M unit :=
  fun w => (Ok tt, {| fs := fs w; dirs := dirs w; trace := trace w ++ [e] |}).
Definition print (m : message) : M unit := emit (EvPrint m).

Definition lift {A} (r : exn A) : M A := fun w => (r, w).

(** [for x in xs] with the loop's variables in [s]. *)
Fixpoint for_each {A St} (body : A -> St -> M St) (xs : list A) (s : St) : M St :=
  match xs with
  | [] => ret s
  | x :: rest => s' <- body x s ;; for_each body rest s'
  end.

(** [for i, x in enumerate(xs, start)] with the loop's variables in [s];
    also used for a plain [for x in xs] whose calls to the outside world
    are told apart by the iteration number. *)
Fixpoint for_enum {A St} (body : nat -> A -> St -> M St)
    (start : nat) (xs : list A) (s : St) : M St :=
  match xs with
  | [] => ret s
  | x :: rest => s' <- body start x s ;; for_enum body (S start) rest s'
  end.

(** *** The calls to the outside world *)

Section Script.
Context {Page : Type} (env : Env Page).

(** [requests.get(url, timeout=timeout)] *)
Definition requests_get (c : call) (url : string) (timeout : nat) : M Response :=
  emit (EvGet url timeout) ;;; lift (http env c url).

(** [BeautifulSoup(text, 'html.parser')] *)
Definition BeautifulSoup (html : string) : M (list Anchor) :=
  lift (html_parser env html).

(** [os.path.exists(path)] *)
Definition path_exists (path : string) : M bool :=
  fun w => (Ok (bool_decide (path ∈ dirs w) || bool_decide (is_Some (fs w !! path))), w).

(** [os.makedirs(path)] *)
Definition makedirs (path : string) : M unit :=
  emit (EvMakedirs path) ;;;
  match os_fault env Makedirs with
  | Some e => raise e
  | None => fun w => (Ok tt, {| fs := fs w; dirs := {[path]} ∪ dirs w; trace := trace w |})
  end.

(** [open(path, 'wb')]: the file is created or truncated. *)
Definition open_wb (c : call) (path : string) : M unit :=
  emit (EvOpen path) ;;;
  match os_fault env c with
  | Some e => raise e
  | None => fun w => (Ok tt, {| fs := <[path := []]> (fs w); dirs := dirs w; trace := trace w |})
  end.

(** [f.write(data)] on the file just opened; a failed write leaves the
    file as [open] left it. *)
Definition write (c : call) (path : string) (data : list Byte.byte) : M unit :=
  emit (EvWrite path) ;;;
  match os_fault env c with
  | Some e => raise e
  | None => fun w => (Ok tt, {| fs := <[path := data]> (fs w); dirs := dirs w; trace := trace w |})
  end.

(** [time.sleep(seconds)] *)
Definition sleep (seconds : nat) : M unit := emit (EvSleep seconds).

(** [PyPDF2.PdfReader(path, strict=False)]: the file is read as a whole
    and parsed. *)
Definition PdfReader (c : call) (path : string) : M (list (exn Page)) :=
  emit (EvPdfRead path) ;;;
  match os_fault env c with
  | Some e => raise e
  | None =>
      fun w => match fs w !! path with
               | None => (Raise (FileNotFoundError path), w)
               | Some data => (pdf_parse env data, w)
               end
  end.

(** [os.remove(path)] *)
Definition os_remove (c : call) (path : string) : M unit :=
  emit (EvRemove path) ;;;
  match os_fault env c with
  | Some e => raise e
  | None =>
      fun w => match fs w !! path with
               | None => (Raise (FileNotFoundError path), w)
               | Some _ => (Ok tt, {| fs := delete path (fs w); dirs := dirs w; trace := trace w |})
               end
  end.

(** [os.rmdir(path)]: the directory must exist and hold nothing. *)
Definition os_rmdir (path : string) : M unit :=
  emit (EvRmdir path) ;;;
  match os_fault env Rmdir with
  | Some e => raise e
  | None =>
      fun w => if negb (bool_decide (path ∈ dirs w))
               then (Raise (FileNotFoundError path), w)
               else if negb (dir_is_empty (fs w) (dirs w) path)
               then (Raise (Exception "OSError: directory not empty"), w)
               else (Ok tt, {| fs := fs w; dirs := dirs w ∖ {[path]}; trace := trace w |})
  end.

(** *** get_page_count *)

(** [lambda x: x and 'node_' in x and '.html' in x] *)
Definition is_node_link (x : option string) : bool :=
  match x with
  | None => false
  | Some s => negb (String.eqb s "") && contains "node_" s && contains ".html" s
  end.

(** [soup.find_all('a', href=p)] *)
Definition find_all (p : option string -> bool) (soup : list Anchor) : list Anchor :=
  List.filter (fun a => p (href a)) soup.

(** [soup.find('a', href=p)] *)
Definition find (p : option string -> bool) (soup : list Anchor) : option Anchor :=
  head (find_all p soup).

(** [link.get('href')] of an anchor that passed a filter on [href]. *)
Definition get_href (a : Anchor) : string := default "" (href a).

(** The loop over [page_links]; [int] may raise. *)
Definition max_page_of (page_links : list Anchor) : exn nat :=
  foldl (fun acc link =>
           match acc with
           | Raise e => Raise e
           | Ok max_page =>
               match re_search_node (get_href link) with
               | Some ds =>
                   match int_of_str ds with
                   | Ok page_num => Ok (Nat.max max_page page_num)
                   | Raise e => Raise e
                   end
               | None => Ok max_page
               end
           end) (Ok 0) page_links.

Definition get_page_count (url : string) : M nat :=
  try_except
    (response <- requests_get CatalogGet url 10 ;;
     soup <- BeautifulSoup (text response) ;;
     let page_links := find_all is_node_link soup in
     max_page <- lift (max_page_of page_links) ;;
     ret max_page)
    (fun e => print (MsgPageCountFailed e) ;;; ret 8).

(** *** get_pdf_urls *)

(** [lambda x: x and x.endswith('.pdf')] *)
Definition is_pdf_link (x : option string) : bool :=
  match x with
  | None => false
  | Some s => negb (String.eqb s "") && endswith ".pdf" s
  end.

(** [f"{base_url}/rmrb/pc/layout/{year}{month}/{day}/"] *)
Definition layout_dir (base_url year month day : string) : string :=
  base_url +:+ "/rmrb/pc/layout/" +:+ year +:+ month +:+ "/" +:+ day +:+ "/".

(** [f"{base_url}/rmrb/pc/layout/{year}{month}/{day}/node_{i:02d}.html"] *)
Definition page_url (base_url year month day : string) (i : nat) : string :=
  layout_dir base_url year month day +:+ "node_" +:+ fmt02 i +:+ ".html".

(** Lines 84-88: the absolute URL of the link found on the page. *)
Definition normalize_href (base_url year month day pdf_href : string) : string :=
  if negb (startswith "http" pdf_href) then
    if startswith "/" pdf_href then base_url +:+ pdf_href
    else layout_dir base_url year month day +:+ pdf_href
  else pdf_href.

(** The body of the loop over the pages: the [try] block and its
    handler; [pdf_urls] is the list built so far. *)
Definition locate_page (base_url year month day : string)
    (i : nat) (pdf_urls : list string) : M (list string) :=
  try_except
    (response <- requests_get (PageGet i) (page_url base_url year month day i) 10 ;;
     soup <- BeautifulSoup (text response) ;;
     match find is_pdf_link soup with
     | Some pdf_link =>
         let pdf_href := normalize_href base_url year month day (get_href pdf_link) in
         print (MsgLinkFound i pdf_href) ;;;
         ret (pdf_urls ++ [pdf_href])%list
     | None =>
         print (MsgLinkMissing i) ;;; ret pdf_urls
     end)
    (fun e => print (MsgLinkFailed i e) ;;; ret pdf_urls).

Definition get_pdf_urls (base_url date_str : string) : M (list string) :=
  match split "-" date_str with
  | [year; month; day] =>
      let catalog_url := page_url base_url year month day 1 in
      page_count <- get_page_count catalog_url ;;
      print (MsgPageCount page_count) ;;;
      for_each (locate_page base_url year month day) (seq 1 page_count) []
  | _ => raise (Exception "ValueError")
  end.

(** *** download_pdfs *)

(** [f"temp_pdfs_{date_str}"] *)
Definition temp_dir_of (date_str : string) : string := "temp_pdfs_" +:+ date_str.

(** [f"{temp_dir}/rmrb_{date_str}_{i+1:02d}.pdf"] *)
Definition temp_file (temp_dir date_str : string) (i : nat) : string :=
  temp_dir +:+ "/rmrb_" +:+ date_str +:+ "_" +:+ fmt02 (i + 1) +:+ ".pdf".

(** The body of the loop over [enumerate(pdf_urls)]: the [try] block and
    its handler.  The file name is appended after the write; the [print]
    and the [sleep] that follow cannot raise, so the handler always sees
    the list as it was before the iteration. *)
Definition download_one (temp_dir date_str : string)
    (i : nat) (pdf_url : string) (downloaded_files : list string) : M (list string) :=
  try_except
    (let file_name := temp_file temp_dir date_str i in
     print (MsgDownloadStart (i + 1)) ;;;
     response <- requests_get (PdfGet i) pdf_url 30 ;;
     open_wb (OpenTemp i) file_name ;;;
     write (WriteTemp i) file_name (content response) ;;;
     let downloaded_files := (downloaded_files ++ [file_name])%list in
     print (MsgDownloadDone (i + 1) file_name) ;;;
     sleep 1 ;;;
     ret downloaded_files)
    (fun e => print (MsgDownloadFailed (i + 1) e) ;;; ret downloaded_files).

Definition download_pdfs (pdf_urls : list string) (date_str : string) : M (list string) :=
  let temp_dir := temp_dir_of date_str in
  there <- path_exists temp_dir ;;
  (if negb there then makedirs temp_dir else ret tt) ;;;
  for_enum (download_one temp_dir date_str) 0 pdf_urls [].

(** *** merge_pdfs *)

(** The loop [for page_num in range(len(pdf_reader.pages))] on the pages
    of [pdf_writer]: pages are added until one raises; those added before
    stay in the writer. *)
Fixpoint add_pages (pages : list (exn Page)) (pdf_writer : list Page)
  : list Page * option error :=
  match pages with
  | [] => (pdf_writer, None)
  | Ok p :: rest => add_pages rest (pdf_writer ++ [p])%list
  | Raise e :: _ => (pdf_writer, Some e)
  end.

(** The body of the loop over [pdf_files]: the inner [try] block gives
    the writer as it has become and the exception that ended the block,
    if any; the handler prints and goes on with that writer. *)
Definition merge_one (j : nat) (pdf_file : string) (pdf_writer : list Page)
  : M (list Page) :=
  r <- try_except
         (pdf_reader <- PdfReader (ReadPdf j) pdf_file ;;
          ret (add_pages pdf_reader pdf_writer))
         (fun e => ret (pdf_writer, Some e)) ;;
  match r with
  | (pdf_writer', None) => ret pdf_writer'
  | (pdf_writer', Some e) => print (MsgReadFailed pdf_file e) ;;; ret pdf_writer'
  end.

(** The loop over [pdf_files]. *)
Definition collect_pages (pdf_files : list string) : M (list Page) :=
  for_enum merge_one 0 pdf_files [].

(** [with open(output_file, 'wb') as out: pdf_writer.write(out)] *)
Definition write_output (pdf_writer : list Page) (output_file : string) : M unit :=
  open_wb OpenOut output_file ;;;
  data <- lift (pdf_serialize env pdf_writer) ;;
  write WriteOut output_file data.

Definition merge_pdfs (pdf_files : list string) (output_file : string) : M bool :=
  try_except
    (pdf_writer <- collect_pages pdf_files ;;
     write_output pdf_writer output_file ;;;
     print (MsgMergeDone output_file) ;;;
     ret true)
    (fun e => print (MsgMergeFailed e) ;;; ret false).

(** *** clean_temp_files *)

Definition remove_one (j : nat) (file : string) (_ : unit) : M unit :=
  try_except (os_remove (Remove j) file)
             (fun e => print (MsgRemoveFailed file e)).

Definition remove_dir (temp_files : list string) : M unit :=
  match temp_files with
  | [] => ret tt
  | first :: _ =>
      let temp_dir := dirname first in
      try_except (os_rmdir temp_dir)
                 (fun e => print (MsgRmdirFailed temp_dir e))
  end.

Definition clean_temp_files (temp_files : list string) : M unit :=
  for_enum remove_one 0 temp_files tt ;;;
  remove_dir temp_files.

(** *** download_rmrb_pdf *)

Definition default_base_url : string := "https://paper.people.com.cn".

(** [f"storage/downloads/rmrb/rmrb_{date_str}.pdf"] *)
Definition output_file_of (date_str : string) : string :=
  "storage/downloads/rmrb/rmrb_" +:+ date_str +:+ ".pdf".

(** The result is [Some path] for a path and [None] for Python's [None]. *)
Definition download_rmrb_pdf (date_str : option string) (base_url : string)
  : M (option string) :=
  let date_str := match date_str with None => today env | Some d => d end in
  print (MsgStart date_str) ;;;
  pdf_urls <- get_pdf_urls base_url date_str ;;
  match pdf_urls with
  | [] => print MsgNoLinks ;;; ret None
  | _ :: _ =>
      downloaded_files <- download_pdfs pdf_urls date_str ;;
      match downloaded_files with
      | [] => print MsgAllDownloadsFailed ;;; ret None
      | _ :: _ =>
          let output_file := output_file_of date_str in
          merged <- merge_pdfs downloaded_files output_file ;;
          if merged then
            clean_temp_files downloaded_files ;;;
            print (MsgFinished date_str) ;;;
            ret (Some output_file)
          else
            clean_temp_files downloaded_files ;;;
            ret None
      end
  end.

End Script.

(** *** Functions used to state the properties *)

(** The world with more events. *)
Definition with_events (w : World) (evs : list event) : World :=
  {| fs := fs w; dirs := dirs w; trace := trace w ++ evs |}.

(** An environment without network: every request raises. *)
Definition offline : Env unit :=
  {| http := fun _ _ => Raise (Exception "ConnectionError");
     html_parser := fun _ => Ok [];
     os_fault := fun _ => None;
     pdf_parse := fun _ => Ok [];
     pdf_serialize := fun _ => Ok [];
     today := "2025-01-01" |}.

Definition empty_world : World := {| fs := ∅; dirs := ∅; trace := [] |}.

Definition is_alpha (c : ascii) : bool :=
  let n := nat_of_ascii c in
  ((65 <=? n) && (n <=? 90)) || ((97 <=? n) && (n <=? 122)).

Definition is_scheme_char (c : ascii) : bool :=
  is_alpha c || is_digit c
  || Ascii.eqb c "+" || Ascii.eqb c "-" || Ascii.eqb c ".".

Fixpoint skip_scheme (s : string) : string :=
  match s with
  | EmptyString => EmptyString
  | String c rest => if is_scheme_char c then skip_scheme rest else s
  end.

(** In the words of the specification, not of the code: the href starts
    with an absolute scheme, that is a letter, then letters, digits, [+],
    [-] or [.], then [://]. *)
Definition spec_starts_with_scheme (pdf_href : string) : bool :=
  match pdf_href with
  | EmptyString => false
  | String c _ => is_alpha c && startswith "://" (skip_scheme pdf_href)
  end.

(** The link [get_pdf_urls] appends for page [i], if any: the page is
    fetched, parsed, and the first anchor on a PDF is normalized. *)
Definition located {Page} (env : Env Page) (base_url year month day : string)
    (i : nat) : option string :=
  match http env (PageGet i) (page_url base_url year month day i) with
  | Raise _ => None
  | Ok response =>
      match html_parser env (text response) with
      | Raise _ => None
      | Ok soup =>
          normalize_href base_url year month day ∘ get_href
            <$> find is_pdf_link soup
      end
  end.

(** An environment in which every page has an anchor without href and
    then an anchor on [h]. *)
Definition linking (h : string) : Env unit :=
  {| http := fun _ _ => Ok {| text := "<a name=top></a><a href=...>"; content := [] |};
     html_parser := fun _ => Ok [ {| href := None |}; {| href := Some h |} ];
     os_fault := fun _ => None;
     pdf_parse := fun _ => Ok [];
     pdf_serialize := fun _ => Ok [];
     today := "2025-01-01" |}.

(** The URLs requested and the files opened by the PDF reader, in order. *)
Definition fetched (t : list event) : list string :=
  omap (fun ev => match ev with EvGet url _ => Some url | _ => None end) t.
Definition pdf_reads (t : list event) : list string :=
  omap (fun ev => match ev with EvPdfRead path => Some path | _ => None end) t.
Definition removals (t : list event) : list event :=
  List.filter (fun ev => match ev with EvRemove _ | EvRmdir _ => true | _ => false end) t.

(** [f] applied along an enumerated list: what a loop comes to when its
    body always returns and its result and its effect on the world are
    functions of the iteration. *)
Fixpoint fold_enum {A St} (f : nat -> A -> St -> St)
    (start : nat) (xs : list A) (s : St) : St :=
  match xs with
  | [] => s
  | x :: rest => fold_enum f (S start) rest (f start x s)
  end.

(** The lists [h start x0], [h (start+1) x1], ... one after the other. *)
Fixpoint concat_enum {A B} (h : nat -> A -> list B)
    (start : nat) (xs : list A) : list B :=
  match xs with
  | [] => []
  | x :: rest => h start x ++ concat_enum h (S start) rest
  end.

(** The number [get_page_count] returns, and what it prints. *)
Definition page_count_of {Page} (env : Env Page) (url : string) : nat :=
  match http env CatalogGet url with
  | Raise _ => 8
  | Ok response =>
      match html_parser env (text response) with
      | Raise _ => 8
      | Ok soup =>
          match max_page_of (find_all is_node_link soup) with
          | Ok max_page => max_page
          | Raise _ => 8
          end
      end
  end.

Definition page_count_events {Page} (env : Env Page) (url : string) : list event :=
  EvGet url 10 ::
  match http env CatalogGet url with
  | Raise e => [EvPrint (MsgPageCountFailed e)]
  | Ok response =>
      match html_parser env (text response) with
      | Raise e => [EvPrint (MsgPageCountFailed e)]
      | Ok soup =>
          match max_page_of (find_all is_node_link soup) with
          | Ok _ => []
          | Raise e => [EvPrint (MsgPageCountFailed e)]
          end
      end
  end.

(** What [locate_page] prints for page [i]. *)
Definition located_message {Page} (env : Env Page)
    (base_url year month day : string) (i : nat) : message :=
  match http env (PageGet i) (page_url base_url year month day i) with
  | Raise e => MsgLinkFailed i e
  | Ok response =>
      match html_parser env (text response) with
      | Raise e => MsgLinkFailed i e
      | Ok soup =>
          match find is_pdf_link soup with
          | Some a => MsgLinkFound i (normalize_href base_url year month day (get_href a))
          | None => MsgLinkMissing i
          end
      end
  end.

Definition locate_events {Page} (env : Env Page)
    (base_url year month day : string) (i : nat) : list event :=
  [EvGet (page_url base_url year month day i) 10;
   EvPrint (located_message env base_url year month day i)].

(** The response saved for URL number [i], if the request, the [open] and
    the [write] all went through. *)
Definition download_ok {Page} (env : Env Page) (i : nat) (pdf_url : string)
  : option Response :=
  match http env (PdfGet i) pdf_url with
  | Raise _ => None
  | Ok response =>
      match os_fault env (OpenTemp i), os_fault env (WriteTemp i) with
      | None, None => Some response
      | _, _ => None
      end
  end.

(** The file name [download_pdfs] appends for URL number [i], if any. *)
Definition downloaded {Page} (env : Env Page) (temp_dir date_str : string)
    (i : nat) (pdf_url : string) : option string :=
  (fun _ => temp_file temp_dir date_str i) <$> download_ok env i pdf_url.

(** What iteration [i] does to the files and which events it adds. *)
Definition download_fs {Page} (env : Env Page) (temp_dir date_str : string)
    (i : nat) (pdf_url : string) (m : gmap string (list Byte.byte))
  : gmap string (list Byte.byte) :=
  let file_name := temp_file temp_dir date_str i in
  match http env (PdfGet i) pdf_url with
  | Raise _ => m
  | Ok response =>
      match os_fault env (OpenTemp i) with
      | Some _ => m
      | None =>
          match os_fault env (WriteTemp i) with
          | Some _ => <[file_name := []]> m
          | None => <[file_name := content response]> (<[file_name := []]> m)
          end
      end
  end.

Definition download_events {Page} (env : Env Page) (temp_dir date_str : string)
    (i : nat) (pdf_url : string) : list event :=
  let file_name := temp_file temp_dir date_str i in
  EvPrint (MsgDownloadStart (i + 1)) :: EvGet pdf_url 30 ::
  match http env (PdfGet i) pdf_url with
  | Raise e => [EvPrint (MsgDownloadFailed (i + 1) e)]
  | Ok response =>
      EvOpen file_name ::
      match os_fault env (OpenTemp i) with
      | Some e => [EvPrint (MsgDownloadFailed (i + 1) e)]
      | None =>
          EvWrite file_name ::
          match os_fault env (WriteTemp i) with
          | Some e => [EvPrint (MsgDownloadFailed (i + 1) e)]
          | None => [EvPrint (MsgDownloadDone (i + 1) file_name); EvSleep 1]
          end
      end
  end.

Definition download_world {Page} (env : Env Page) (temp_dir date_str : string)
    (i : nat) (pdf_url : string) (w : World) : World :=
  {| fs := download_fs env temp_dir date_str i pdf_url (fs w);
     dirs := dirs w;
     trace := trace w ++ download_events env temp_dir date_str i pdf_url |}.

(** The world after the loop over [enumerate(pdf_urls)]. *)
Definition download_loop_world {Page} (env : Env Page) (temp_dir date_str : string)
    (start : nat) (pdf_urls : list string) (w : World) : World :=
  fold_enum (download_world env temp_dir date_str) start pdf_urls w.

(** The file names the loop returns: those of the URLs saved, in the
    order of the URLs. *)
Definition download_names {Page} (env : Env Page) (temp_dir date_str : string)
    (start : nat) (pdf_urls : list string) : list string :=
  concat_enum (fun i url => option_list (downloaded env temp_dir date_str i url))
    start pdf_urls.

(** [download_pdfs] raises only if the temporary directory is missing and
    cannot be made; otherwise it returns the names of the files saved. *)
Definition makedirs_needed_and_fails {Page} (env : Env Page) (date_str : string)
    (w : World) : option error :=
  if bool_decide (temp_dir_of date_str ∈ dirs w)
     || bool_decide (is_Some (fs w !! temp_dir_of date_str))
  then None else os_fault env Makedirs.

(** The world when the loop of [download_pdfs] starts. *)
Definition download_start_world (date_str : string) (w : World) : World :=
  if bool_decide (temp_dir_of date_str ∈ dirs w)
     || bool_decide (is_Some (fs w !! temp_dir_of date_str))
  then w
  else {| fs := fs w; dirs := {[temp_dir_of date_str]} ∪ dirs w;
          trace := trace w ++ [EvMakedirs (temp_dir_of date_str)] |}.

Definition parse_nat (s : string) : option nat :=
  Nat.of_uint <$> NilEmpty.uint_of_string s.

(** What [PdfReader(pdf_file)] gives for the [j]-th file when the files
    are [m]. *)
Definition read_outcome {Page} (env : Env Page) (m : gmap string (list Byte.byte))
    (j : nat) (pdf_file : string) : exn (list (exn Page)) :=
  match os_fault env (ReadPdf j) with
  | Some e => Raise e
  | None =>
      match m !! pdf_file with
      | None => Raise (FileNotFoundError pdf_file)
      | Some data => pdf_parse env data
      end
  end.

(** The pages the [j]-th file adds to the writer, and the exception that
    ended its [try] block, if any. *)
Definition pages_read {Page} (env : Env Page) (m : gmap string (list Byte.byte))
    (j : nat) (pdf_file : string) : list Page :=
  match read_outcome env m j pdf_file with
  | Raise _ => []
  | Ok pages => (add_pages pages []).1
  end.

Definition read_error {Page} (env : Env Page) (m : gmap string (list Byte.byte))
    (j : nat) (pdf_file : string) : option error :=
  match read_outcome env m j pdf_file with
  | Raise e => Some e
  | Ok pages => (add_pages pages []).2
  end.

Definition read_events {Page} (env : Env Page) (m : gmap string (list Byte.byte))
    (j : nat) (pdf_file : string) : list event :=
  EvPdfRead pdf_file ::
  match read_error env m j pdf_file with
  | Some e => [EvPrint (MsgReadFailed pdf_file e)]
  | None => []
  end.

(** The document the loop over [pdf_files] assembles. *)
Definition merged_pages {Page} (env : Env Page) (m : gmap string (list Byte.byte))
    (start : nat) (pdf_files : list string) : list Page :=
  concat_enum (pages_read env m) start pdf_files.

(** The bytes that reach the output file, if the [open], the
    serialization and the [write] all go through. *)
Definition output_written {Page} (env : Env Page) (pdf_writer : list Page)
  : option (list Byte.byte) :=
  match os_fault env OpenOut, pdf_serialize env pdf_writer, os_fault env WriteOut with
  | None, Ok data, None => Some data
  | _, _, _ => None
  end.

(** The pages the merger takes from the bytes of its [j]-th input. *)
Definition pages_of_bytes {Page} (env : Env Page) (j : nat) (data : list Byte.byte)
  : list Page :=
  match os_fault env (ReadPdf j) with
  | Some _ => []
  | None =>
      match pdf_parse env data with
      | Raise _ => []
      | Ok pages => (add_pages pages []).1
      end
  end.

(** The merged document as a function of the URLs: URL number [i] gives
    nothing if its download fails; otherwise it is the [j]-th file of the
    merger, [j] counting the downloads that succeeded before it, and gives
    the pages read from the body of its response. *)
Fixpoint expected_pages {Page} (env : Env Page) (i j : nat) (pdf_urls : list string)
  : list Page :=
  match pdf_urls with
  | [] => []
  | url :: rest =>
      match download_ok env i url with
      | None => expected_pages env (S i) j rest
      | Some response =>
          pages_of_bytes env j (content response)
          ++ expected_pages env (S i) (S j) rest
      end
  end.

(** A toy world for running the script: every byte of a file is a page,
    the body behind a URL is the URL's own bytes, an HTML page is one
    anchor whose href is the page's text, the catalog announces three
    pages and every page links to [news.pdf].  The arguments say which
    page fetches and which downloads fail, and where the operating system
    refuses. *)
Definition toy (page_fails pdf_fails : nat -> bool) (faults : call -> option error)
  : Env Byte.byte :=
  {| http := fun c url =>
       match c with
       | CatalogGet => Ok {| text := "node_03.html"; content := [] |}
       | PageGet i =>
           if page_fails i then Raise (Exception "timeout")
           else Ok {| text := "news.pdf"; content := [] |}
       | PdfGet i =>
           if pdf_fails i then Raise (Exception "timeout")
           else Ok {| text := ""; content := list_byte_of_string url |}
       | _ => Raise (Exception "not a request")
       end;
     html_parser := fun html => Ok [ {| href := Some html |} ];
     os_fault := faults;
     pdf_parse := fun data => Ok (Ok <$> data);
     pdf_serialize := fun pages => Ok pages;
     today := "2025-01-01" |}.

Definition no_faults : call -> option error := fun _ => None.

(** The second of three downloads fails. *)
Definition second_fails : Env Byte.byte :=
  toy (fun _ => false) (fun i => Nat.eqb i 1) no_faults.

(** An operation on the file system that was attempted: its event, and
    after it the message of its handler if it raised. *)
Definition attempted (op : event) (failed : error -> message) (evs : list event) : Prop :=
  evs = [op] \/ exists e, evs = [op; EvPrint (failed e)].

(** The world after [os.remove] of the [j]-th file in its [try]. *)
Definition remove_world {Page} (env : Env Page) (j : nat) (file : string) (w : World)
  : World :=
  match os_fault env (Remove j) with
  | Some e => with_events w [EvRemove file; EvPrint (MsgRemoveFailed file e)]
  | None =>
      match fs w !! file with
      | None =>
          with_events w
            [EvRemove file; EvPrint (MsgRemoveFailed file (FileNotFoundError file))]
      | Some _ =>
          {| fs := delete file (fs w); dirs := dirs w;
             trace := trace w ++ [EvRemove file] |}
      end
  end.

(** The exception [os.remove] raises on the [j]-th file when the files
    are [m], if it raises. *)
Definition remove_failure {Page} (env : Env Page) (m : gmap string (list Byte.byte))
    (j : nat) (file : string) : option error :=
  match os_fault env (Remove j) with
  | Some e => Some e
  | None =>
      match m !! file with
      | None => Some (FileNotFoundError file)
      | Some _ => None
      end
  end.

(** What the [j]-th iteration of [clean_temp_files] adds to the trace:
    the removal, and the message of the handler exactly when the removal
    raised. *)
Definition removal_events {Page} (env : Env Page) (m : gmap string (list Byte.byte))
    (j : nat) (file : string) : list event :=
  EvRemove file ::
  match remove_failure env m j file with
  | Some e => [EvPrint (MsgRemoveFailed file e)]
  | None => []
  end.

(** The exception [os.rmdir] raises on [path] when the files are [m] and
    the directories [ds], if it raises. *)
Definition rmdir_failure {Page} (env : Env Page) (m : gmap string (list Byte.byte))
    (ds : gset string) (path : string) : option error :=
  match os_fault env Rmdir with
  | Some e => Some e
  | None =>
      if negb (bool_decide (path ∈ ds)) then Some (FileNotFoundError path)
      else if negb (dir_is_empty m ds path)
      then Some (Exception "OSError: directory not empty")
      else None
  end.

(** What the end of [clean_temp_files] adds to the trace. *)
Definition rmdir_events {Page} (env : Env Page) (m : gmap string (list Byte.byte))
    (ds : gset string) (temp_files : list string) : list event :=
  match temp_files with
  | [] => []
  | first :: _ =>
      EvRmdir (dirname first) ::
      match rmdir_failure env m ds (dirname first) with
      | Some e => [EvPrint (MsgRmdirFailed (dirname first) e)]
      | None => []
      end
  end.

(** The world after the [os.rmdir] in its [try]. *)
Definition remove_dir_world {Page} (env : Env Page) (temp_files : list string) (w : World)
  : World :=
  match temp_files with
  | [] => w
  | first :: _ =>
      let temp_dir := dirname first in
      match rmdir_failure env (fs w) (dirs w) temp_dir with
      | Some e => with_events w [EvRmdir temp_dir; EvPrint (MsgRmdirFailed temp_dir e)]
      | None =>
          {| fs := fs w; dirs := dirs w ∖ {[temp_dir]};
             trace := trace w ++ [EvRmdir temp_dir] |}
      end
  end.

(** The world [clean_temp_files] leaves. *)
Definition clean_world {Page} (env : Env Page) (temp_files : list string) (w : World)
  : World :=
  remove_dir_world env temp_files (fold_enum (remove_world env) 0 temp_files w).

Definition date_of {Page} (env : Env Page) (date_str : option string) : string :=
  match date_str with None => today env | Some d => d end.

(** The fetch of page 2 and the first download fail, and the first
    temporary file cannot be removed. *)
Definition flaky : Env Byte.byte :=
  toy (fun i => Nat.eqb i 2) (fun i => Nat.eqb i 0)
      (fun c => match c with Remove 0 => Some (Exception "busy") | _ => None end).

(** The write of the first temporary file fails. *)
Definition write_fails : Env Byte.byte :=
  toy (fun _ => false) (fun _ => false)
      (fun c => match c with
                | WriteTemp 0 => Some (Exception "OSError: no space left on device")
                | _ => None
                end).

(** Every download fails. *)
Definition no_downloads : Env Byte.byte := toy (fun _ => false) (fun _ => true) no_faults.

(** No file parses as a PDF; a document is written as one byte per page
    and a closing byte. *)
Definition no_pdf_parses : Env unit :=
  {| http := fun _ _ => Raise (Exception "ConnectionError");
     html_parser := fun _ => Ok [];
     os_fault := fun _ => None;
     pdf_parse := fun _ => Raise (Exception "PdfReadError");
     pdf_serialize := fun pages => Ok (replicate (length pages) Byte.x50 ++ [Byte.x25]);
     today := "2025-01-01" |}.

(** Two files that are not PDFs. *)
Definition two_files : World :=
  {| fs := <["a.pdf" := [Byte.x00]]> (<["b.pdf" := []]> ∅); dirs := ∅; trace := [] |}.

(** An anchor of the catalog on page [n], named as [page_url] names the
    pages. *)
Definition node_anchor (n : nat) : Anchor :=
  {| href := Some ("node_" +:+ fmt02 n +:+ ".html") |}.

(** The seconds slept, in order. *)
Definition sleeps (t : list event) : list nat :=
  omap (fun ev => match ev with EvSleep n => Some n | _ => None end) t.

(** The directories [os.makedirs] was asked to make, in order. *)
Definition made_dirs (t : list event) : list string :=
  omap (fun ev => match ev with EvMakedirs path => Some path | _ => None end) t.

(** [os.path.exists(path)] in the world [w]. *)
Definition exists_in (w : World) (path : string) : bool :=
  bool_decide (path ∈ dirs w) || bool_decide (is_Some (fs w !! path)).

End RmrbDown.

(** * Properties *)

(** ** Strings *)

Module PyFacts.

Lemma append_cons a s t : String a s +:+ t = String a (s +:+ t).
Proof. reflexivity. Qed.

Lemma append_nil_l s : "" +:+ s = s.
Proof. reflexivity. Qed.

Lemma append_nil_r s : s +:+ "" = s.
Proof. induction s as [|a s IH]; [reflexivity|]. by rewrite append_cons, IH. Qed.

Lemma append_assoc s t u : (s +:+ t) +:+ u = s +:+ (t +:+ u).
Proof. induction s as [|a s IH]; [reflexivity|]. by rewrite !append_cons, IH. Qed.

Lemma length_append s t :
  String.length (s +:+ t) = String.length s + String.length t.
Proof.
  induction s as [|a s IH]; [reflexivity|].
  rewrite append_cons. simpl. by rewrite IH.
Qed.

Lemma count_char_append c s t :
  count_char c (s +:+ t) = count_char c s + count_char c t.
Proof.
  induction s as [|a s IH]; [reflexivity|].
  rewrite append_cons. simpl. rewrite IH. lia.
Qed.

(** A string without the separator is one segment. *)
Lemma split_none c s : count_char c s = 0 -> split c s = [s].
Proof.
  induction s as [|a s IH]; [reflexivity|]. simpl.
  destruct (Ascii.eqb a c); [discriminate|]. simpl. intros H.
  by rewrite IH.
Qed.

(** The first separator after a segment without one ends that segment. *)
Lemma split_append c s t :
  count_char c s = 0 -> split c (s +:+ String c t) = s :: split c t.
Proof.
  induction s as [|a s IH].
  - intros _. rewrite append_nil_l. simpl. by rewrite Ascii.eqb_refl.
  - simpl. destruct (Ascii.eqb a c) eqn:E; [discriminate|]. simpl. intros H.
    by rewrite IH.
Qed.

Lemma count_char_join c (xs : list string) :
  Forall (fun s => count_char c s = 0) xs ->
  count_char c (join (String c "") xs) = length xs - 1.
Proof.
  induction 1 as [|x xs Hx Hxs IH]; [reflexivity|].
  destruct xs as [|y ys].
  - simpl. rewrite Hx. reflexivity.
  - change (join (String c "") (x :: y :: ys))
      with (x +:+ String c "" +:+ join (String c "") (y :: ys)).
    rewrite !count_char_append, Hx, IH. simpl. rewrite Ascii.eqb_refl. lia.
Qed.

Lemma split_join c (xs : list string) :
  Forall (fun s => count_char c s = 0) xs -> xs <> [] ->
  split c (join (String c "") xs) = xs.
Proof.
  induction 1 as [|x xs Hx Hxs IH]; [done|]. intros _.
  destruct xs as [|y ys].
  - simpl. by apply split_none.
  - change (join (String c "") (x :: y :: ys))
      with (x +:+ String c (join (String c "") (y :: ys))).
    rewrite split_append by done. by rewrite IH.
Qed.

Lemma length_join sep (xs : list string) :
  String.length (join sep xs)
  = sum_list (String.length <$> xs) + (length xs - 1) * String.length sep.
Proof.
  induction xs as [|x xs IH]; [reflexivity|].
  destruct xs as [|y ys].
  - simpl. lia.
  - change (join sep (x :: y :: ys)) with (x +:+ sep +:+ join sep (y :: ys)).
    rewrite !length_append, IH. simpl. lia.
Qed.

End PyFacts.

(** ** note_for_rmrb.py *)

Module NoteForRmrbFacts.
Import NoteForRmrb PyFacts.

Lemma page_texts_ok (texts : list (option string)) :
  page_texts (page_of <$> texts) = Ok (text_or_empty <$> texts).
Proof.
  induction texts as [|t texts IH]; [reflexivity|].
  rewrite !fmap_cons. cbn [page_texts page_of extract_text]. by rewrite IH.
Qed.

(** C5. [read_pdf] of a PDF with N pages returns the page texts, a page
    without text counting as the empty string, joined by one newline
    each: the result is N segments and N-1 separators long, and when no
    page text holds a newline itself it has exactly N-1 newlines and
    splits back into the N page texts.  For three pages of which the
    second has no text the result is the first text, a newline, an empty
    segment, a newline and the third text. *)
Theorem read_pdf_joins_pages (texts : list (option string)) :
  let segments := text_or_empty <$> texts in
  read_pdf (Ok (page_of <$> texts)) = Ok (join NL segments)
  /\ String.length (join NL segments)
     = sum_list (String.length <$> segments) + (length texts - 1)
  /\ (Forall (fun s => count_char LF s = 0) segments ->
      count_char LF (join NL segments) = length texts - 1
      /\ (texts <> [] -> split LF (join NL segments) = segments))
  /\ (forall a b c, texts = [Some a; b; Some c] -> text_or_empty b = "" ->
      read_pdf (Ok (page_of <$> texts))
      = Ok (text_or_empty (Some a) +:+ NL +:+ "" +:+ NL +:+ text_or_empty (Some c))).
Proof.
  intros segments. split; [|split; [|split]].
  - unfold read_pdf. by rewrite page_texts_ok.
  - rewrite length_join. subst segments. rewrite length_fmap. simpl. lia.
  - intros Hno. split.
    + unfold NL. rewrite count_char_join by done.
      subst segments. by rewrite length_fmap.
    + intros Hne. apply split_join; [done|].
      subst segments. by destruct texts.
  - intros a b c -> Hb. unfold read_pdf. rewrite page_texts_ok.
    simpl. by rewrite Hb.
Qed.

Lemma read_pdf_joins_pages_witness :
  read_pdf (Ok (page_of <$> [Some "a"; None; Some "c"])) = Ok ("a" +:+ NL +:+ "" +:+ NL +:+ "c")
  /\ count_char LF (join NL (text_or_empty <$> [Some "a"; None; Some "c"])) = 2
  /\ split LF (join NL (text_or_empty <$> [Some "a"; None; Some "c"])) = ["a"; ""; "c"].
Proof.
  pose proof (read_pdf_joins_pages [Some "a"; None; Some "c"]) as (_ & _ & H3 & H4).
  split; [|split].
  - apply (H4 "a" None "c"); reflexivity.
  - apply H3. repeat constructor.
  - apply H3; [repeat constructor | discriminate].
Defined.

(** *** The loop of [extract_info] *)

Lemma step_mycontent st chunk :
  mycontent (step st chunk)
  = mycontent st +:+
    (if carries_reasoning chunk then "" else answer_content chunk).
Proof.
  unfold step, carries_reasoning, answer_content.
  destruct (choices chunk) as [[|choice rest]|]; try by rewrite append_nil_r.
  cbn zeta. destruct (truthy (reasoning_content (delta choice)));
    [by rewrite append_nil_r|].
  destruct (content (delta choice)) as [| |s] eqn:E; simpl;
    try by rewrite append_nil_r.
  destruct (String.eqb_spec s "") as [->|]; simpl; [by rewrite append_nil_r|done].
Qed.

Lemma foldl_step_mycontent chunks st :
  mycontent (foldl step st chunks)
  = mycontent st +:+ concat_str (answer_content <$> answer_only chunks).
Proof.
  revert st. induction chunks as [|chunk chunks IH]; intros st.
  - simpl. by rewrite append_nil_r.
  - simpl foldl. rewrite IH, step_mycontent. unfold answer_only. simpl List.filter.
    destruct (carries_reasoning chunk); simpl.
    + by rewrite append_nil_r.
    + by rewrite append_assoc.
Qed.

Lemma run_mycontent chunks :
  mycontent (run chunks) = concat_str (answer_content <$> answer_only chunks).
Proof. unfold run. by rewrite foldl_step_mycontent. Qed.

Lemma answer_only_app xs ys : answer_only (xs ++ ys) = answer_only xs ++ answer_only ys.
Proof. unfold answer_only. apply List.filter_app. Qed.

(** C2, the claim as worded fails: a chunk that carries reasoning content
    and answer content has its answer content dropped, so the result is
    not the concatenation of the chunks' answer content. *)
Lemma extract_info_not_all_answers :
  extract_info (Ok ([both "r" "x" []], EndOfStream)) = Ok ""
  /\ concat_str (answer_content <$> [both "r" "x" []]) = "x"
  /\ extract_info (Ok ([both "r" "x" []], EndOfStream))
     <> Ok (concat_str (answer_content <$> [both "r" "x" []])).
Proof. split; [reflexivity|split; [reflexivity|discriminate]]. Qed.

(** C2, amended. For every finite stream of chunks that ends normally,
    [extract_info] returns the concatenation, in stream order, of the
    answer content of the chunks that carry no reasoning content; a
    stream in which every chunk is either a reasoning fragment or an
    answer fragment gives the concatenation of all its answer fragments,
    whatever the reasoning fragments hold; the stream
    [reasoning "reason-A"; answer "Hello"; answer " world"] gives
    "Hello world". *)
Theorem extract_info_concatenates_answers (chunks : list Chunk) :
  extract_info (Ok (chunks, EndOfStream))
  = Ok (concat_str (answer_content <$> answer_only chunks))
  /\ (forall frags : list (bool * string),
        extract_info
          (Ok ((fun f : bool * string => if f.1 then reasoning f.2 else answer f.2) <$> frags,
               EndOfStream))
        = Ok (concat_str (snd <$> List.filter (fun f : bool * string => negb f.1) frags)))
  /\ extract_info
       (Ok ([reasoning "reason-A"; answer "Hello"; answer " world"], EndOfStream))
     = Ok "Hello world".
Proof.
  split; [|split; [|reflexivity]].
  - unfold extract_info. by rewrite run_mycontent.
  - intros frags. unfold extract_info. rewrite run_mycontent. f_equal.
    induction frags as [|[[|] s] frags IH]; [reflexivity| |].
    + rewrite fmap_cons. unfold answer_only in *. simpl List.filter.
      destruct (String.eqb_spec s "") as [->|Hs].
      * simpl. exact IH.
      * cbn. destruct (String.eqb_spec s ""); [done|]. simpl. exact IH.
    + rewrite fmap_cons. unfold answer_only in *. simpl List.filter.
      rewrite !fmap_cons. simpl concat_str. by rewrite IH.
Qed.

(** C10. A chunk whose first choice carries non-empty reasoning content
    and non-empty answer content takes the reasoning branch only: the
    iteration prints the reasoning content and leaves the accumulator as
    it was, and the value [extract_info] returns is the one it returns
    for the stream without that chunk. *)
Theorem extract_info_reasoning_shadows_answer
    (r c : string) (others : list Choice) (st : LoopState)
    (before after : list Chunk) :
  r <> "" -> c <> "" ->
  step st (both r c others)
  = {| stdout := stdout st ++ [r]; mycontent := mycontent st |}
  /\ extract_info (Ok (before ++ both r c others :: after, EndOfStream))
     = extract_info (Ok (before ++ after, EndOfStream)).
Proof.
  intros Hr Hc.
  assert (Ht : truthy (PyStr r) = true).
  { simpl. by destruct (String.eqb_spec r ""). }
  split.
  - unfold step, both. cbn. cbn in Ht. by rewrite Ht.
  - unfold extract_info. rewrite !run_mycontent, !answer_only_app.
    unfold answer_only at 2. simpl List.filter.
    unfold carries_reasoning, both. cbn. cbn in Ht. by rewrite Ht.
Qed.

Lemma extract_info_reasoning_shadows_answer_witness :
  step init (both "think" "Hi" [])
  = {| stdout := ["think"]; mycontent := "" |}
  /\ extract_info (Ok ([answer "a"] ++ both "think" "Hi" [] :: [answer "b"], EndOfStream))
     = extract_info (Ok ([answer "a"] ++ [answer "b"], EndOfStream)).
Proof.
  apply (extract_info_reasoning_shadows_answer "think" "Hi" [] init
           [answer "a"] [answer "b"]); discriminate.
Defined.

End NoteForRmrbFacts.

(** ** rmrb_down.py *)

Module RmrbDownFacts.
Import RmrbDown PyFacts.

Lemma with_events_nil w : with_events w [] = w.
Proof. destruct w. unfold with_events. simpl. by rewrite app_nil_r. Qed.

Lemma with_events_app w e1 e2 :
  with_events (with_events w e1) e2 = with_events w (e1 ++ e2).
Proof. unfold with_events. simpl. by rewrite app_assoc. Qed.

(** Unfolding the plumbing of a computation. *)
Ltac run :=
  unfold requests_get, BeautifulSoup, print, sleep, try_except, bind, ret,
    raise, lift, emit in *; simpl in *.

(** *** get_page_count *)

(** C3. When the fetch of the catalog page raises, or the page comes back
    and the HTML parser raises on its text, [get_page_count] returns 8
    and raises nothing: all it does is the request and the message. *)
Theorem get_page_count_fallback {Page} (env : Env Page) (url : string)
    (e : error) (w : World) :
  (http env CatalogGet url = Raise e
   \/ exists r, http env CatalogGet url = Ok r
                /\ html_parser env (text r) = Raise e) ->
  get_page_count env url w
  = (Ok 8, with_events w [EvGet url 10; EvPrint (MsgPageCountFailed e)]).
Proof.
  intros [H|(r & Hr & Hp)]; unfold get_page_count, with_events; run.
  - rewrite H. simpl. by rewrite <- app_assoc.
  - rewrite Hr. simpl. rewrite Hp. simpl. by rewrite <- app_assoc.
Qed.

Lemma get_page_count_fallback_witness :
  get_page_count offline "B/rmrb/pc/layout/202501/01/node_01.html" empty_world
  = (Ok 8, with_events empty_world
             [EvGet "B/rmrb/pc/layout/202501/01/node_01.html" 10;
              EvPrint (MsgPageCountFailed (Exception "ConnectionError"))]).
Proof.
  apply (get_page_count_fallback offline _ (Exception "ConnectionError")).
  left. reflexivity.
Defined.

(** *** Link normalization *)

#[local] Arguments startswith : simpl never.

(** What [locate_page] returns: the list, with the located link at its
    end if there is one. *)
Lemma locate_page_result {Page} (env : Env Page) base_url year month day i pdf_urls w :
  (locate_page env base_url year month day i pdf_urls w).1
  = Ok (pdf_urls ++ option_list (located env base_url year month day i)).
Proof.
  unfold locate_page, located. run.
  destruct (http env (PageGet i) _) as [r|e]; simpl; [|by rewrite app_nil_r].
  destruct (html_parser env (text r)) as [soup|e]; simpl; [|by rewrite app_nil_r].
  destruct (find is_pdf_link soup) as [a|]; simpl; [done|by rewrite app_nil_r].
Qed.

(** C4, the claim as worded fails on both sides of the test the code
    makes, which is on the four characters [http]: an href with another
    scheme is rewritten as if it were relative to the page, and a file
    name that begins with [http] is left as it is. *)
Lemma normalize_href_scheme_counterexample :
  spec_starts_with_scheme "ftp://other/x.pdf" = true
  /\ (locate_page (linking "ftp://other/x.pdf") "B" "2025" "01" "01" 3 [] empty_world).1
     = Ok ["B/rmrb/pc/layout/202501/01/ftp://other/x.pdf"]
  /\ normalize_href "B" "2025" "01" "01" "ftp://other/x.pdf" <> "ftp://other/x.pdf"
  /\ spec_starts_with_scheme "httpfoo.pdf" = false
  /\ startswith "/" "httpfoo.pdf" = false
  /\ (locate_page (linking "httpfoo.pdf") "B" "2025" "01" "01" 3 [] empty_world).1
     = Ok ["httpfoo.pdf"]
  /\ normalize_href "B" "2025" "01" "01" "httpfoo.pdf"
     <> "B/rmrb/pc/layout/202501/01/httpfoo.pdf".
Proof. repeat split; try reflexivity; discriminate. Qed.

(** C4, amended. When page [i] is fetched and parsed and its first anchor
    on a PDF has the href [h], the link appended for the page is [h]
    itself if [h] starts with the characters [http]; else the base URL
    followed by [h] if [h] starts with [/]; else the directory of the
    page, [<base>/rmrb/pc/layout/<year><month>/<day>/], followed by [h].
    So [https://other/x.pdf] is unchanged, [/abs/x.pdf] becomes
    [<base>/abs/x.pdf], and [foo.pdf] on a page of 2025-01-01 becomes
    [<base>/rmrb/pc/layout/202501/01/foo.pdf]. *)
Theorem located_link_normalized {Page} (env : Env Page)
    (base_url year month day : string) (i : nat) (pdf_urls : list string)
    (w : World) (r : Response) (soup : list Anchor) (a : Anchor) (h : string) :
  http env (PageGet i) (page_url base_url year month day i) = Ok r ->
  html_parser env (text r) = Ok soup ->
  find is_pdf_link soup = Some a ->
  href a = Some h ->
  (locate_page env base_url year month day i pdf_urls w).1
  = Ok (pdf_urls ++
        [if startswith "http" h then h
         else if startswith "/" h then base_url +:+ h
         else base_url +:+ "/rmrb/pc/layout/" +:+ year +:+ month +:+ "/"
                       +:+ day +:+ "/" +:+ h])
  /\ normalize_href base_url year month day "https://other/x.pdf"
     = "https://other/x.pdf"
  /\ normalize_href base_url year month day "/abs/x.pdf"
     = base_url +:+ "/abs/x.pdf"
  /\ (split "-" "2025-01-01" = [year; month; day] ->
      normalize_href base_url year month day "foo.pdf"
      = base_url +:+ "/rmrb/pc/layout/202501/01/foo.pdf").
Proof.
  intros Hr Hs Ha Hh. split; [|split; [|split]]; try reflexivity.
  - rewrite locate_page_result. unfold located. rewrite Hr, Hs, Ha. simpl.
    unfold get_href. rewrite Hh. simpl. unfold normalize_href, layout_dir.
    destruct (startswith "http" h); simpl; [done|].
    destruct (startswith "/" h); [done|].
    by rewrite !append_assoc.
  - intros [= <- <- <-]. unfold normalize_href, layout_dir. simpl.
    by rewrite !append_assoc.
Qed.

Lemma located_link_normalized_witness :
  (locate_page (linking "foo.pdf") "B" "2025" "01" "01" 3 [] empty_world).1
  = Ok ["B/rmrb/pc/layout/202501/01/foo.pdf"]
  /\ normalize_href "B" "2025" "01" "01" "foo.pdf"
     = "B" +:+ "/rmrb/pc/layout/202501/01/foo.pdf".
Proof.
  pose proof (located_link_normalized (linking "foo.pdf") "B" "2025" "01" "01" 3 []
                empty_world {| text := "<a name=top></a><a href=...>"; content := [] |}
                [ {| href := None |}; {| href := Some "foo.pdf" |} ]
                {| href := Some "foo.pdf" |} "foo.pdf"
                eq_refl eq_refl eq_refl eq_refl) as (H1 & _ & _ & H4).
  split; [exact H1 | apply H4; reflexivity].
Defined.

(** *** Loops whose body catches everything *)

Lemma fetched_app t1 t2 : fetched (t1 ++ t2) = fetched t1 ++ fetched t2.
Proof. apply omap_app. Qed.
Lemma pdf_reads_app t1 t2 : pdf_reads (t1 ++ t2) = pdf_reads t1 ++ pdf_reads t2.
Proof. apply omap_app. Qed.
Lemma removals_app t1 t2 : removals (t1 ++ t2) = removals t1 ++ removals t2.
Proof. apply List.filter_app. Qed.

Lemma for_enum_total {A St} (body : nat -> A -> St -> M St)
    (f : nat -> A -> St -> St) (g : nat -> A -> World -> World) :
  (forall i x s w, body i x s w = (Ok (f i x s), g i x w)) ->
  forall xs start s w,
    for_enum body start xs s w
    = (Ok (fold_enum f start xs s), fold_enum g start xs w).
Proof.
  intros Hbody. induction xs as [|x xs IH]; intros start s w; [reflexivity|].
  simpl. unfold bind. rewrite Hbody. apply IH.
Qed.

Lemma for_each_total {A St} (body : A -> St -> M St)
    (f : A -> St -> St) (g : A -> World -> World) :
  (forall x s w, body x s w = (Ok (f x s), g x w)) ->
  forall xs s w,
    for_each body xs s w
    = (Ok (foldl (flip f) s xs), foldl (flip g) w xs).
Proof.
  intros Hbody. induction xs as [|x xs IH]; intros s w; [reflexivity|].
  simpl. unfold bind. rewrite Hbody. apply IH.
Qed.

(** Folds that append to a list, and folds that add events. *)
Lemma fold_enum_app {A B} (h : nat -> A -> list B) xs start (acc : list B) :
  fold_enum (fun i x acc => acc ++ h i x) start xs acc
  = acc ++ concat_enum h start xs.
Proof.
  revert start acc. induction xs as [|x xs IH]; intros start acc; simpl.
  - by rewrite app_nil_r.
  - by rewrite IH, <- app_assoc.
Qed.

Lemma fold_enum_events {A} (h : nat -> A -> list event) xs start w :
  (fold_enum (fun i x w => with_events w (h i x)) start xs w)
  = with_events w (concat_enum h start xs).
Proof.
  revert start w. induction xs as [|x xs IH]; intros start w; simpl.
  - by rewrite with_events_nil.
  - by rewrite IH, with_events_app.
Qed.


Lemma foldl_app_list {A B} (h : A -> list B) xs (acc : list B) :
  foldl (flip (fun x acc => acc ++ h x)) acc xs = acc ++ concat (h <$> xs).
Proof.
  revert acc. induction xs as [|x xs IH]; intros acc; simpl.
  - by rewrite app_nil_r.
  - by rewrite IH, <- app_assoc.
Qed.

Lemma foldl_events {A} (h : A -> list event) xs w :
  foldl (flip (fun x w => with_events w (h x))) w xs
  = with_events w (concat (h <$> xs)).
Proof.
  revert w. induction xs as [|x xs IH]; intros w; simpl.
  - by rewrite with_events_nil.
  - by rewrite IH, with_events_app.
Qed.

(** *** The locator *)

Lemma get_page_count_run {Page} (env : Env Page) url w :
  get_page_count env url w
  = (Ok (page_count_of env url), with_events w (page_count_events env url)).
Proof.
  unfold get_page_count, page_count_of, page_count_events, with_events. run.
  destruct (http env CatalogGet url) as [r|e]; simpl; [|by rewrite <- app_assoc].
  destruct (html_parser env (text r)) as [soup|e]; simpl; [|by rewrite <- app_assoc].
  destruct (max_page_of (find_all is_node_link soup)) as [n|e]; simpl; [done|].
  by rewrite <- app_assoc.
Qed.

Lemma locate_page_run {Page} (env : Env Page) base_url year month day i pdf_urls w :
  locate_page env base_url year month day i pdf_urls w
  = (Ok (pdf_urls ++ option_list (located env base_url year month day i)),
     with_events w (locate_events env base_url year month day i)).
Proof.
  unfold locate_page, located, locate_events, located_message, with_events. run.
  destruct (http env (PageGet i) _) as [r|e]; simpl;
    [|by rewrite app_nil_r, <- app_assoc].
  destruct (html_parser env (text r)) as [soup|e]; simpl;
    [|by rewrite app_nil_r, <- app_assoc].
  destruct (find is_pdf_link soup) as [a|]; simpl;
    rewrite <- ?app_assoc, ?app_nil_r; done.
Qed.

Lemma concat_option_list {A B} (f : A -> option B) (xs : list A) :
  concat ((fun x => option_list (f x)) <$> xs) = omap f xs.
Proof.
  induction xs as [|x xs IH]; [reflexivity|].
  rewrite fmap_cons. simpl. rewrite IH. by destruct (f x).
Qed.

Lemma locate_loop_run {Page} (env : Env Page) base_url year month day pages pdf_urls w :
  for_each (locate_page env base_url year month day) pages pdf_urls w
  = (Ok (pdf_urls ++ omap (located env base_url year month day) pages),
     with_events w (concat (locate_events env base_url year month day <$> pages))).
Proof.
  rewrite (for_each_total _
             (fun i acc => acc ++ option_list (located env base_url year month day i))
             (fun i w => with_events w (locate_events env base_url year month day i)))
    by (intros; apply locate_page_run).
  by rewrite foldl_app_list, foldl_events, concat_option_list.
Qed.


Lemma get_pdf_urls_run {Page} (env : Env Page) base_url date_str year month day w :
  split "-" date_str = [year; month; day] ->
  let catalog_url := page_url base_url year month day 1 in
  let n := page_count_of env catalog_url in
  get_pdf_urls env base_url date_str w
  = (Ok (omap (located env base_url year month day) (seq 1 n)),
     with_events w
       (page_count_events env catalog_url ++ [EvPrint (MsgPageCount n)] ++
        concat (locate_events env base_url year month day <$> seq 1 n))).
Proof.
  intros Hd. simpl. unfold get_pdf_urls. rewrite Hd.
  unfold bind at 1. rewrite get_page_count_run.
  unfold bind, print, emit. simpl.
  rewrite locate_loop_run. simpl. f_equal.
  unfold with_events. simpl. by rewrite <- !app_assoc.
Qed.

(** *** The downloader *)

Lemma download_one_run {Page} (env : Env Page) temp_dir date_str i pdf_url files w :
  download_one env temp_dir date_str i pdf_url files w
  = (Ok (files ++ option_list (downloaded env temp_dir date_str i pdf_url)),
     download_world env temp_dir date_str i pdf_url w).
Proof.
  unfold download_one, downloaded, download_ok, download_world, download_fs,
    download_events, open_wb, write.
  run.
  destruct (http env (PdfGet i) pdf_url) as [r|e]; simpl;
    [|by rewrite app_nil_r, <- !app_assoc].
  destruct (os_fault env (OpenTemp i)) as [e|]; simpl;
    [by rewrite app_nil_r, <- !app_assoc|].
  destruct (os_fault env (WriteTemp i)) as [e|]; simpl;
    [by rewrite app_nil_r, <- !app_assoc|].
  by rewrite <- !app_assoc.
Qed.

Lemma download_loop_run {Page} (env : Env Page) temp_dir date_str pdf_urls start files w :
  for_enum (download_one env temp_dir date_str) start pdf_urls files w
  = (Ok (files ++ download_names env temp_dir date_str start pdf_urls),
     download_loop_world env temp_dir date_str start pdf_urls w).
Proof.
  rewrite (for_enum_total _
             (fun i url acc => acc ++ option_list (downloaded env temp_dir date_str i url))
             (download_world env temp_dir date_str))
    by (intros; apply download_one_run).
  by rewrite fold_enum_app.
Qed.

Lemma download_loop_trace {Page} (env : Env Page) temp_dir date_str pdf_urls start w :
  trace (download_loop_world env temp_dir date_str start pdf_urls w)
  = trace w ++ concat_enum (download_events env temp_dir date_str) start pdf_urls.
Proof.
  unfold download_loop_world.
  revert start w. induction pdf_urls as [|url urls IH]; intros start w;
    cbn [fold_enum concat_enum].
  - by rewrite app_nil_r.
  - rewrite IH. unfold download_world. cbn [trace]. by rewrite <- app_assoc.
Qed.

Lemma download_loop_dirs {Page} (env : Env Page) temp_dir date_str pdf_urls start w :
  dirs (download_loop_world env temp_dir date_str start pdf_urls w) = dirs w.
Proof.
  unfold download_loop_world.
  revert start w. induction pdf_urls as [|url urls IH]; intros start w;
    cbn [fold_enum]; [done|]. by rewrite IH.
Qed.

Lemma fetched_download_events {Page} (env : Env Page) temp_dir date_str i url :
  fetched (download_events env temp_dir date_str i url) = [url].
Proof.
  unfold download_events. simpl.
  destruct (http env (PdfGet i) url); [|done]. simpl.
  destruct (os_fault env (OpenTemp i)); [done|]. simpl.
  by destruct (os_fault env (WriteTemp i)).
Qed.

Lemma fetched_download_loop {Page} (env : Env Page) temp_dir date_str pdf_urls start :
  fetched (concat_enum (download_events env temp_dir date_str) start pdf_urls)
  = pdf_urls.
Proof.
  revert start. induction pdf_urls as [|url urls IH]; intros start; [reflexivity|].
  cbn [concat_enum]. by rewrite fetched_app, fetched_download_events, IH.
Qed.


Lemma download_pdfs_run {Page} (env : Env Page) pdf_urls date_str w :
  download_pdfs env pdf_urls date_str w
  = match makedirs_needed_and_fails env date_str w with
    | Some e => (Raise e, with_events w [EvMakedirs (temp_dir_of date_str)])
    | None =>
        (Ok (download_names env (temp_dir_of date_str) date_str 0 pdf_urls),
         download_loop_world env (temp_dir_of date_str) date_str 0 pdf_urls
           (download_start_world date_str w))
    end.
Proof.
  unfold download_pdfs, makedirs_needed_and_fails, download_start_world,
    path_exists, makedirs.
  unfold bind at 1. cbv zeta.
  destruct (bool_decide (temp_dir_of date_str ∈ dirs w)
            || bool_decide (is_Some (fs w !! temp_dir_of date_str))); simpl.
  - unfold bind, ret. by rewrite download_loop_run.
  - unfold bind, emit. simpl.
    destruct (os_fault env Makedirs) as [e|]; [done|]. simpl.
    by rewrite download_loop_run.
Qed.

(** *** The names of the temporary files are distinct *)

Lemma parse_nat_fmt02 n : parse_nat (fmt02 n) = Some n.
Proof.
  unfold fmt02, parse_nat, str_of_nat.
  destruct (String.length _ <? 2).
  - change ("0" +:+ ?s) with (String "0" s). cbn [NilEmpty.uint_of_string].
    rewrite NilEmpty.usu. simpl. f_equal.
    change (Nat.of_uint (D0 ?d)) with (Nat.of_uint d).
    apply DecimalNat.Unsigned.of_to.
  - rewrite NilEmpty.usu. simpl. f_equal. apply DecimalNat.Unsigned.of_to.
Qed.

Lemma fmt02_inj n m : fmt02 n = fmt02 m -> n = m.
Proof.
  intros H. apply (f_equal parse_nat) in H.
  rewrite !parse_nat_fmt02 in H. congruence.
Qed.

Lemma append_inv_tail s1 s2 t : s1 +:+ t = s2 +:+ t -> s1 = s2.
Proof.
  revert s2. induction s1 as [|a s1 IH]; intros [|b s2] H.
  - done.
  - apply (f_equal String.length) in H. rewrite append_nil_l, append_cons in H.
    simpl in H. rewrite length_append in H. lia.
  - apply (f_equal String.length) in H. rewrite append_nil_l, append_cons in H.
    simpl in H. rewrite length_append in H. lia.
  - rewrite !append_cons in H. injection H as -> H. f_equal. by apply IH.
Qed.

Lemma append_inv_head s t1 t2 : s +:+ t1 = s +:+ t2 -> t1 = t2.
Proof.
  induction s as [|a s IH]; [done|].
  rewrite !append_cons. intros [= H]. by apply IH.
Qed.

Lemma temp_file_inj temp_dir date_str i j :
  temp_file temp_dir date_str i = temp_file temp_dir date_str j -> i = j.
Proof.
  unfold temp_file. intros H.
  do 4 apply append_inv_head in H.
  apply append_inv_tail, fmt02_inj in H. lia.
Qed.

(** *** The files the downloader leaves *)

Lemma download_fs_other {Page} (env : Env Page) temp_dir date_str i url m p :
  p <> temp_file temp_dir date_str i ->
  download_fs env temp_dir date_str i url m !! p = m !! p.
Proof.
  intros Hp. unfold download_fs. cbv zeta.
  destruct (http env (PdfGet i) url); [|done].
  destruct (os_fault env (OpenTemp i)); [done|].
  destruct (os_fault env (WriteTemp i)); by rewrite ?lookup_insert_ne.
Qed.

Lemma download_fs_saved {Page} (env : Env Page) temp_dir date_str i url m r :
  download_ok env i url = Some r ->
  download_fs env temp_dir date_str i url m !! temp_file temp_dir date_str i
  = Some (content r).
Proof.
  unfold download_ok, download_fs. cbv zeta.
  destruct (http env (PdfGet i) url) as [r'|]; [|done].
  destruct (os_fault env (OpenTemp i)); [done|].
  destruct (os_fault env (WriteTemp i)); [done|].
  intros [= ->]. by rewrite lookup_insert_eq.
Qed.

(** The loop from index [start] on touches only the files of the indices
    from [start] on. *)
Lemma download_loop_fs_other {Page} (env : Env Page) temp_dir date_str urls start w p :
  (forall k, start <= k -> p <> temp_file temp_dir date_str k) ->
  fs (download_loop_world env temp_dir date_str start urls w) !! p = fs w !! p.
Proof.
  unfold download_loop_world.
  revert start w. induction urls as [|url urls IH]; intros start w Hp; [done|].
  cbn [fold_enum]. rewrite IH by (intros k Hk; apply Hp; lia).
  unfold download_world. cbn [fs]. apply download_fs_other, Hp. lia.
Qed.

(** A file saved by the loop holds the body of its response when the loop
    ends: later iterations write to other names. *)
Lemma download_loop_fs_saved {Page} (env : Env Page) temp_dir date_str urls start w k url r :
  urls !! k = Some url ->
  download_ok env (start + k) url = Some r ->
  fs (download_loop_world env temp_dir date_str start urls w)
    !! temp_file temp_dir date_str (start + k)
  = Some (content r).
Proof.
  unfold download_loop_world.
  revert start w k. induction urls as [|u urls IH]; intros start w k Hk Hok; [done|].
  cbn [fold_enum]. destruct k as [|k].
  - injection Hk as ->. rewrite Nat.add_0_r in *.
    fold (download_loop_world env temp_dir date_str (S start) urls
            (download_world env temp_dir date_str start url w)).
    rewrite download_loop_fs_other.
    + unfold download_world. cbn [fs]. by apply download_fs_saved.
    + intros j Hj Heq. apply temp_file_inj in Heq. lia.
  - replace (start + S k) with (S start + k) in * by lia.
    by apply IH.
Qed.

(** *** The merger *)

Lemma add_pages_app {Page} (pages : list (exn Page)) (pdf_writer : list Page) :
  add_pages pages pdf_writer
  = (pdf_writer ++ (add_pages pages []).1, (add_pages pages []).2).
Proof.
  revert pdf_writer. induction pages as [|[p|e] pages IH]; intros pdf_writer; simpl.
  - by rewrite app_nil_r.
  - rewrite (IH (pdf_writer ++ [p])), (IH [p]). simpl. by rewrite <- app_assoc.
  - by rewrite app_nil_r.
Qed.

Lemma add_pages_all_ok {Page} (ps : list Page) :
  add_pages (Ok <$> ps) [] = (ps, None).
Proof.
  induction ps as [|p ps IH]; [reflexivity|].
  rewrite fmap_cons. cbn [add_pages]. rewrite add_pages_app, IH. reflexivity.
Qed.

Lemma merge_one_run {Page} (env : Env Page) j pdf_file pdf_writer w :
  merge_one env j pdf_file pdf_writer w
  = (Ok (pdf_writer ++ pages_read env (fs w) j pdf_file),
     with_events w (read_events env (fs w) j pdf_file)).
Proof.
  unfold merge_one, pages_read, read_events, read_error, read_outcome,
    PdfReader, with_events.
  run.
  destruct (os_fault env (ReadPdf j)) as [e|]; simpl;
    [by rewrite app_nil_r, <- app_assoc|].
  destruct (fs w !! pdf_file) as [data|]; simpl;
    [|by rewrite app_nil_r, <- app_assoc].
  destruct (pdf_parse env data) as [pages|e]; simpl;
    [|by rewrite app_nil_r, <- app_assoc].
  rewrite add_pages_app.
  destruct (add_pages pages []) as [ps [e|]]; simpl; by rewrite <- ?app_assoc.
Qed.

Lemma merge_loop_run {Page} (env : Env Page) pdf_files start pdf_writer w :
  for_enum (merge_one env) start pdf_files pdf_writer w
  = (Ok (pdf_writer ++ merged_pages env (fs w) start pdf_files),
     with_events w (concat_enum (read_events env (fs w)) start pdf_files)).
Proof.
  unfold merged_pages.
  revert start pdf_writer w.
  induction pdf_files as [|f files IH]; intros start pdf_writer w.
  - simpl. unfold ret. by rewrite app_nil_r, with_events_nil.
  - cbn [for_enum concat_enum]. unfold bind. rewrite merge_one_run, IH.
    cbn [with_events fs]. by rewrite with_events_app, <- app_assoc.
Qed.

Lemma pdf_reads_read_events {Page} (env : Env Page) m start pdf_files :
  pdf_reads (concat_enum (read_events env m) start pdf_files) = pdf_files.
Proof.
  revert start. induction pdf_files as [|f files IH]; intros start; [reflexivity|].
  cbn [concat_enum]. rewrite pdf_reads_app, IH. unfold read_events.
  by destruct (read_error env m start f).
Qed.

Lemma write_output_run {Page} (env : Env Page) pdf_writer output_file w :
  match output_written env pdf_writer with
  | Some data =>
      write_output env pdf_writer output_file w
      = (Ok tt, {| fs := <[output_file := data]> (<[output_file := []]> (fs w));
                   dirs := dirs w;
                   trace := trace w ++ [EvOpen output_file; EvWrite output_file] |})
  | None =>
      exists e m evs,
        write_output env pdf_writer output_file w
        = (Raise e, {| fs := m; dirs := dirs w; trace := trace w ++ evs |})
        /\ (evs = [EvOpen output_file]
            \/ evs = [EvOpen output_file; EvWrite output_file])
  end.
Proof.
  unfold output_written, write_output, open_wb, write. run.
  destruct (os_fault env OpenOut) as [e|]; simpl; [by eauto 10|].
  destruct (pdf_serialize env pdf_writer) as [data|e]; simpl; [|by eauto 10].
  destruct (os_fault env WriteOut) as [e|]; simpl.
  - do 3 eexists. rewrite <- app_assoc. split; [reflexivity|]. by right.
  - by rewrite <- app_assoc.
Qed.

(** [merge_pdfs] raises nothing; it returns [True] exactly when the
    output was written, and then the output file holds the serialized
    document. *)
Lemma merge_pdfs_run {Page} (env : Env Page) pdf_files output_file w :
  let doc := merged_pages env (fs w) 0 pdf_files in
  exists w',
    merge_pdfs env pdf_files output_file w
    = (Ok (bool_decide (is_Some (output_written env doc))), w')
    /\ pdf_reads (trace w') = pdf_reads (trace w) ++ pdf_files
    /\ forall data, output_written env doc = Some data ->
                    fs w' !! output_file = Some data.
Proof.
  intros doc. unfold merge_pdfs, collect_pages, try_except.
  unfold bind at 1. rewrite merge_loop_run. cbn [app]. fold doc.
  unfold bind at 1.
  pose proof (write_output_run env doc output_file
                (with_events w (concat_enum (read_events env (fs w)) 0 pdf_files)))
    as Hw.
  destruct (output_written env doc) as [data|].
  - rewrite Hw. run. eexists. split; [reflexivity|]. simpl. split.
    + rewrite <- !app_assoc, !pdf_reads_app, pdf_reads_read_events. simpl.
      by rewrite app_nil_r.
    + intros ? [= <-]. by rewrite lookup_insert_eq.
  - destruct Hw as (e & m & evs & -> & Hevs). run. eexists.
    split; [reflexivity|]. split; [|done]. simpl.
    rewrite <- !app_assoc, !pdf_reads_app, pdf_reads_read_events.
    destruct Hevs as [-> | ->]; simpl; by rewrite app_nil_r.
Qed.

Lemma merged_pages_unreadable {Page} (env : Env Page) m pdf_files start :
  (forall k f, pdf_files !! k = Some f ->
               is_ok (read_outcome env m (start + k) f) = false) ->
  merged_pages env m start pdf_files = [].
Proof.
  unfold merged_pages.
  revert start. induction pdf_files as [|f files IH]; intros start H; [done|].
  cbn [concat_enum]. rewrite IH.
  - specialize (H 0 f eq_refl). rewrite Nat.add_0_r in H.
    unfold pages_read. by destruct (read_outcome env m start f).
  - intros k g Hk. specialize (H (S k) g Hk).
    by replace (S start + k) with (start + S k) by lia.
Qed.

(** C9. [merge_pdfs] raises nothing, and it returns [False] exactly when
    the [open] of the output, the serialization or the [write] fails,
    whatever happened to the reads.  When [PdfReader] raises on every
    input file, the document handed to the writer has no page; if the
    output can be opened, serialized and written, [merge_pdfs] returns
    [True] and the output file holds the serialized empty document. *)
Theorem merge_pdfs_all_unreadable {Page} (env : Env Page)
    (pdf_files : list string) (output_file : string) (w : World) :
  (exists b w',
     merge_pdfs env pdf_files output_file w = (Ok b, w')
     /\ (b = false <->
         os_fault env OpenOut <> None
         \/ is_ok (pdf_serialize env (merged_pages env (fs w) 0 pdf_files)) = false
         \/ os_fault env WriteOut <> None))
  /\ ((forall j f, pdf_files !! j = Some f ->
                   is_ok (read_outcome env (fs w) j f) = false) ->
      merged_pages env (fs w) 0 pdf_files = []
      /\ forall data,
           os_fault env OpenOut = None ->
           pdf_serialize env [] = Ok data ->
           os_fault env WriteOut = None ->
           exists w', merge_pdfs env pdf_files output_file w = (Ok true, w')
                      /\ fs w' !! output_file = Some data).
Proof.
  destruct (merge_pdfs_run env pdf_files output_file w) as (w' & Hrun & _ & Hout).
  split.
  - exists (bool_decide (is_Some (output_written env (merged_pages env (fs w) 0 pdf_files)))), w'.
    split; [done|]. unfold output_written.
    destruct (os_fault env OpenOut) as [e|];
      [split; [by left|by intros _]|].
    destruct (pdf_serialize env _) as [data|e]; simpl;
      [|split; [by right; left|by intros _]].
    destruct (os_fault env WriteOut) as [e|];
      [split; [by right; right|by intros _]|].
    split.
    + intros Hb. apply bool_decide_eq_false in Hb. destruct Hb. by eexists.
    + intros [?|[?|?]]; done.
  - intros Hall.
    assert (merged_pages env (fs w) 0 pdf_files = []) as Hdoc
      by (by apply merged_pages_unreadable).
    split; [done|]. intros data Ho Hs Hw. exists w'.
    rewrite Hdoc in Hrun, Hout.
    assert (output_written env [] = Some data) as Hwritten
      by (unfold output_written; by rewrite Ho, Hs, Hw).
    split; [|by apply Hout].
    by rewrite Hrun, Hwritten.
Qed.

Lemma merge_pdfs_all_unreadable_witness :
  exists w', merge_pdfs no_pdf_parses ["a.pdf"; "b.pdf"] "out.pdf" two_files = (Ok true, w')
             /\ fs w' !! "out.pdf" = Some [Byte.x25].
Proof.
  pose proof (merge_pdfs_all_unreadable no_pdf_parses ["a.pdf"; "b.pdf"] "out.pdf"
                two_files) as [_ Hall].
  destruct Hall as [_ Hwritten].
  - intros [|[|j]] f Hf; simplify_eq/=; reflexivity.
  - apply (Hwritten [Byte.x25]); reflexivity.
Defined.

(** *** Download, then merge *)

Lemma download_names_saved {Page} (env : Env Page) temp_dir date_str i url urls r :
  download_ok env i url = Some r ->
  download_names env temp_dir date_str i (url :: urls)
  = temp_file temp_dir date_str i :: download_names env temp_dir date_str (S i) urls.
Proof.
  intros Hok. unfold download_names. cbn [concat_enum].
  unfold downloaded at 1. by rewrite Hok.
Qed.

Lemma download_names_failed {Page} (env : Env Page) temp_dir date_str i url urls :
  download_ok env i url = None ->
  download_names env temp_dir date_str i (url :: urls)
  = download_names env temp_dir date_str (S i) urls.
Proof.
  intros Hok. unfold download_names. cbn [concat_enum].
  unfold downloaded at 1. by rewrite Hok.
Qed.

Lemma merged_pages_cons {Page} (env : Env Page) m j f files :
  merged_pages env m j (f :: files)
  = pages_read env m j f ++ merged_pages env m (S j) files.
Proof. reflexivity. Qed.

Lemma download_loop_world_cons {Page} (env : Env Page) temp_dir date_str i url urls w :
  download_loop_world env temp_dir date_str i (url :: urls) w
  = download_loop_world env temp_dir date_str (S i) urls
      (download_world env temp_dir date_str i url w).
Proof. reflexivity. Qed.

Lemma merged_pages_expected {Page} (env : Env Page) temp_dir date_str pdf_urls i j w :
  merged_pages env (fs (download_loop_world env temp_dir date_str i pdf_urls w)) j
    (download_names env temp_dir date_str i pdf_urls)
  = expected_pages env i j pdf_urls.
Proof.
  revert i j w. induction pdf_urls as [|url urls IH]; intros i j w; [reflexivity|].
  cbn [expected_pages].
  destruct (download_ok env i url) as [r|] eqn:Hok.
  - rewrite (download_names_saved _ _ _ _ _ _ r), merged_pages_cons by done.
    f_equal.
    + pose proof (download_loop_fs_saved env temp_dir date_str (url :: urls) i w 0 url r
                    eq_refl) as Hsaved.
      rewrite Nat.add_0_r in Hsaved.
      unfold pages_read, read_outcome, pages_of_bytes.
      rewrite (Hsaved Hok). by destruct (os_fault env (ReadPdf j)).
    + rewrite download_loop_world_cons. apply IH.
  - rewrite download_names_failed, download_loop_world_cons by done. apply IH.
Qed.

Lemma download_pdfs_ok {Page} (env : Env Page) pdf_urls date_str w files w1 :
  download_pdfs env pdf_urls date_str w = (Ok files, w1) ->
  files = download_names env (temp_dir_of date_str) date_str 0 pdf_urls
  /\ w1 = download_loop_world env (temp_dir_of date_str) date_str 0 pdf_urls
            (download_start_world date_str w).
Proof.
  rewrite download_pdfs_run.
  destruct (makedirs_needed_and_fails env date_str w); [done|].
  by intros [= <- <-].
Qed.

(** C1. When [download_pdfs] has returned and [merge_pdfs] runs on the
    files it returned, the document handed to the writer is made of the
    pages of the downloads that succeeded, in the order of the URLs, and a
    URL whose download failed leaves nothing behind; when [merge_pdfs]
    returns [True] the output file holds that document, serialized.  For
    three URLs of which the second cannot be fetched and the other two
    are fetched, saved and read in full, the merged pages are those of
    the first file followed by those of the third. *)
Theorem merged_pages_in_url_order {Page} (env : Env Page)
    (pdf_urls : list string) (date_str output_file : string)
    (w0 : World) (files : list string) (w1 : World) (merged : bool) (w2 : World) :
  download_pdfs env pdf_urls date_str w0 = (Ok files, w1) ->
  merge_pdfs env files output_file w1 = (Ok merged, w2) ->
  merged_pages env (fs w1) 0 files = expected_pages env 0 0 pdf_urls
  /\ (merged = true ->
      exists data, pdf_serialize env (expected_pages env 0 0 pdf_urls) = Ok data
                   /\ fs w2 !! output_file = Some data)
  /\ (forall u1 u2 u3 r1 e r3 ps1 ps3,
        pdf_urls = [u1; u2; u3] ->
        (forall c, os_fault env c = None) ->
        http env (PdfGet 0) u1 = Ok r1 ->
        http env (PdfGet 1) u2 = Raise e ->
        http env (PdfGet 2) u3 = Ok r3 ->
        pdf_parse env (content r1) = Ok (Ok <$> ps1) ->
        pdf_parse env (content r3) = Ok (Ok <$> ps3) ->
        files = [temp_file (temp_dir_of date_str) date_str 0;
                 temp_file (temp_dir_of date_str) date_str 2]
        /\ expected_pages env 0 0 pdf_urls = ps1 ++ ps3).
Proof.
  intros Hdl Hmerge. apply download_pdfs_ok in Hdl as [-> ->].
  pose proof (merged_pages_expected env (temp_dir_of date_str) date_str pdf_urls 0 0
                (download_start_world date_str w0)) as Hdoc.
  split; [done|]. split.
  - intros ->.
    destruct (merge_pdfs_run env
                (download_names env (temp_dir_of date_str) date_str 0 pdf_urls)
                output_file
                (download_loop_world env (temp_dir_of date_str) date_str 0 pdf_urls
                   (download_start_world date_str w0)))
      as (w' & Hrun & _ & Hout).
    rewrite Hmerge, Hdoc in Hrun. rewrite Hdoc in Hout.
    injection Hrun as Hb <-. symmetry in Hb. apply bool_decide_eq_true in Hb.
    destruct Hb as [data Hdata]. exists data. split; [|by apply Hout].
    unfold output_written in Hdata.
    destruct (os_fault env OpenOut); [done|].
    destruct (pdf_serialize env _); [|done].
    destruct (os_fault env WriteOut); [done|]. congruence.
  - intros u1 u2 u3 r1 e r3 ps1 ps3 -> Hos H1 H2 H3 Hp1 Hp3.
    assert (download_ok env 0 u1 = Some r1) as Hok1
      by (unfold download_ok; by rewrite H1, !Hos).
    assert (download_ok env 1 u2 = None) as Hok2
      by (unfold download_ok; by rewrite H2).
    assert (download_ok env 2 u3 = Some r3) as Hok3
      by (unfold download_ok; by rewrite H3, !Hos).
    split.
    + rewrite (download_names_saved _ _ _ _ _ _ r1) by done.
      rewrite download_names_failed by done.
      by rewrite (download_names_saved _ _ _ _ _ _ r3) by done.
    + cbn [expected_pages]. rewrite Hok1, Hok2, Hok3.
      unfold pages_of_bytes. rewrite !Hos, Hp1, Hp3, !add_pages_all_ok.
      simpl. by rewrite app_nil_r.
Qed.

Lemma merged_pages_in_url_order_witness :
  let files := ["temp_pdfs_2025-01-01/rmrb_2025-01-01_01.pdf";
                "temp_pdfs_2025-01-01/rmrb_2025-01-01_03.pdf"] in
  let w1 := (download_pdfs second_fails ["a"; "b"; "c"] "2025-01-01" empty_world).2 in
  let w2 := (merge_pdfs second_fails files "out.pdf" w1).2 in
  merged_pages second_fails (fs w1) 0 files
  = list_byte_of_string "a" ++ list_byte_of_string "c"
  /\ fs w2 !! "out.pdf" = Some (list_byte_of_string "a" ++ list_byte_of_string "c").
Proof.
  intros files w1 w2.
  pose proof (merged_pages_in_url_order second_fails ["a"; "b"; "c"] "2025-01-01"
                "out.pdf" empty_world files w1 true w2
                ltac:(vm_compute; reflexivity) ltac:(vm_compute; reflexivity))
    as (Hdoc & Hout & Hthree).
  destruct (Hthree "a" "b" "c"
              {| text := ""; content := list_byte_of_string "a" |}
              (Exception "timeout")
              {| text := ""; content := list_byte_of_string "c" |}
              (list_byte_of_string "a") (list_byte_of_string "c")
              eq_refl (fun _ => eq_refl) eq_refl eq_refl eq_refl eq_refl eq_refl)
    as [_ Hpages].
  split.
  - rewrite Hdoc. exact Hpages.
  - destruct (Hout eq_refl) as (data & Hser & Hfile).
    rewrite Hpages in Hser. injection Hser as <-. exact Hfile.
Defined.

(** *** Cleaning up *)

Lemma remove_one_run {Page} (env : Env Page) j file u w :
  remove_one env j file u w = (Ok tt, remove_world env j file w).
Proof.
  unfold remove_one, remove_world, os_remove, with_events. run.
  destruct (os_fault env (Remove j)) as [e|]; simpl; [by rewrite <- app_assoc|].
  destruct (fs w !! file); simpl; [done|by rewrite <- app_assoc].
Qed.

Lemma remove_world_trace {Page} (env : Env Page) j file w :
  exists evs, trace (remove_world env j file w) = trace w ++ evs
              /\ attempted (EvRemove file) (MsgRemoveFailed file) evs.
Proof.
  unfold remove_world, attempted.
  destruct (os_fault env (Remove j)) as [e|]; simpl; [by eauto|].
  destruct (fs w !! file); simpl; by eauto.
Qed.

Lemma remove_world_dirs {Page} (env : Env Page) j file w :
  dirs (remove_world env j file w) = dirs w.
Proof.
  unfold remove_world.
  destruct (os_fault env (Remove j)); [done|]. by destruct (fs w !! file).
Qed.

Lemma remove_world_gone {Page} (env : Env Page) j file w p :
  fs w !! p = None -> fs (remove_world env j file w) !! p = None.
Proof.
  unfold remove_world. intros Hp.
  destruct (os_fault env (Remove j)); [done|].
  destruct (fs w !! file); [|done]. simpl.
  rewrite lookup_delete. by case_decide.
Qed.

Lemma remove_world_removes {Page} (env : Env Page) j file w :
  os_fault env (Remove j) = None ->
  fs (remove_world env j file w) !! file = None.
Proof.
  unfold remove_world. intros ->.
  destruct (fs w !! file) eqn:E; [|done]. simpl. apply lookup_delete_eq.
Qed.

Lemma remove_loop_trace {Page} (env : Env Page) files start w :
  exists evss,
    trace (fold_enum (remove_world env) start files w) = trace w ++ concat evss
    /\ Forall2 (fun file evs => attempted (EvRemove file) (MsgRemoveFailed file) evs)
         files evss.
Proof.
  revert start w. induction files as [|f files IH]; intros start w.
  - exists []. simpl. by rewrite app_nil_r.
  - cbn [fold_enum].
    destruct (IH (S start) (remove_world env start f w)) as (evss & Ht & Hall).
    destruct (remove_world_trace env start f w) as (evs & Hevs & Hatt).
    exists (evs :: evss). split; [|by constructor].
    rewrite Ht, Hevs. simpl. by rewrite <- app_assoc.
Qed.

Lemma remove_loop_dirs {Page} (env : Env Page) files start w :
  dirs (fold_enum (remove_world env) start files w) = dirs w.
Proof.
  revert start w. induction files as [|f files IH]; intros start w; [done|].
  cbn [fold_enum]. by rewrite IH, remove_world_dirs.
Qed.

Lemma remove_loop_gone {Page} (env : Env Page) files start w p :
  fs w !! p = None -> fs (fold_enum (remove_world env) start files w) !! p = None.
Proof.
  revert start w. induction files as [|f files IH]; intros start w Hp; [done|].
  cbn [fold_enum]. by apply IH, remove_world_gone.
Qed.

Lemma remove_loop_removes {Page} (env : Env Page) files start w p :
  (forall j, os_fault env (Remove j) = None) ->
  p ∈ files ->
  fs (fold_enum (remove_world env) start files w) !! p = None.
Proof.
  intros Hos. revert start w.
  induction files as [|f files IH]; intros start w Hp; [by apply elem_of_nil in Hp|].
  cbn [fold_enum]. apply elem_of_cons in Hp as [->|Hp].
  - by apply remove_loop_gone, remove_world_removes.
  - by apply IH.
Qed.

Lemma remove_dir_run {Page} (env : Env Page) temp_files w :
  remove_dir env temp_files w = (Ok tt, remove_dir_world env temp_files w).
Proof.
  unfold remove_dir, remove_dir_world, rmdir_failure, os_rmdir, with_events.
  destruct temp_files as [|first rest]; [done|]. run.
  destruct (os_fault env Rmdir) as [e|]; simpl; [by rewrite <- app_assoc|].
  destruct (bool_decide (dirname first ∈ dirs w)); simpl; [|by rewrite <- app_assoc].
  destruct (dir_is_empty (fs w) (dirs w) (dirname first)); simpl;
    [done|by rewrite <- app_assoc].
Qed.

Lemma clean_temp_files_run {Page} (env : Env Page) temp_files w :
  clean_temp_files env temp_files w = (Ok tt, clean_world env temp_files w).
Proof.
  unfold clean_temp_files, clean_world, bind.
  rewrite (for_enum_total _ (fun _ _ u => u) (remove_world env))
    by (intros ? ? [] ?; apply remove_one_run).
  apply remove_dir_run.
Qed.

Lemma remove_dir_world_trace {Page} (env : Env Page) temp_files w :
  exists evs,
    trace (remove_dir_world env temp_files w) = trace w ++ evs
    /\ match temp_files with
       | [] => evs = []
       | first :: _ =>
           attempted (EvRmdir (dirname first)) (MsgRmdirFailed (dirname first)) evs
       end.
Proof.
  unfold remove_dir_world, attempted.
  destruct temp_files as [|first rest]; [exists []; by rewrite app_nil_r|].
  cbv zeta. destruct (rmdir_failure env (fs w) (dirs w) (dirname first)) as [e|];
    simpl; by eauto.
Qed.

Lemma remove_dir_world_fs {Page} (env : Env Page) temp_files w :
  fs (remove_dir_world env temp_files w) = fs w.
Proof.
  unfold remove_dir_world. destruct temp_files; [done|]. cbv zeta.
  by destruct (rmdir_failure env _ _ _).
Qed.

Lemma removals_attempted_remove file evs :
  attempted (EvRemove file) (MsgRemoveFailed file) evs -> removals evs = [EvRemove file].
Proof. by intros [->|[e ->]]. Qed.

Lemma removals_attempted_rmdir d evs :
  attempted (EvRmdir d) (MsgRmdirFailed d) evs -> removals evs = [EvRmdir d].
Proof. by intros [->|[e ->]]. Qed.

Lemma removals_concat_attempted files evss :
  Forall2 (fun file evs => attempted (EvRemove file) (MsgRemoveFailed file) evs)
    files evss ->
  removals (concat evss) = EvRemove <$> files.
Proof.
  induction 1 as [|f evs files evss Hatt _ IH]; [reflexivity|].
  simpl. by rewrite removals_app, (removals_attempted_remove f), IH.
Qed.

(** *** The directory of a temporary file *)

#[local] Arguments contains : simpl never.
#[local] Arguments Ascii.eqb : simpl never.

Lemma contains_slash_cons c s :
  contains "/" (String c s) = Ascii.eqb "/" c || contains "/" s.
Proof.
  change (contains "/" (String c s))
    with (startswith "/" (String c s) || contains "/" s).
  f_equal. unfold startswith. by rewrite andb_true_r.
Qed.

Lemma contains_slash_count s :
  contains "/" s = negb (count_char "/" s =? 0).
Proof.
  induction s as [|c s IH]; [reflexivity|].
  rewrite contains_slash_cons, IH. cbn [count_char]. rewrite (Ascii.eqb_sym c "/").
  by destruct (Ascii.eqb "/" c).
Qed.

Lemma upto_last_slash_none s : count_char "/" s = 0 -> upto_last_slash s = "".
Proof.
  intros H. destruct s as [|c s]; [done|].
  cbn [upto_last_slash]. by rewrite contains_slash_count, H.
Qed.

Lemma upto_last_slash_append a b :
  count_char "/" b = 0 -> upto_last_slash (a +:+ String "/" b) = a +:+ "/".
Proof.
  intros Hb. induction a as [|c a IH].
  - rewrite !append_nil_l. cbn [upto_last_slash].
    rewrite contains_slash_cons. simpl. by rewrite upto_last_slash_none.
  - rewrite !append_cons. cbn [upto_last_slash].
    rewrite contains_slash_count, <- append_cons, count_char_append. simpl count_char at 2.
    rewrite IH. by destruct (count_char "/" (String c a)).
Qed.

Lemma rstrip_slash_append a : count_char "/" a = 0 -> rstrip_slash (a +:+ "/") = a.
Proof.
  induction a as [|c a IH]; [done|]. simpl.
  destruct (Ascii.eqb c "/") eqn:E; [done|]. simpl. intros Ha.
  rewrite IH by done. by destruct a.
Qed.

Lemma count_char_uint d : count_char "/" (NilEmpty.string_of_uint d) = 0.
Proof.
  induction d; cbn [NilEmpty.string_of_uint count_char]; rewrite ?IHd; reflexivity.
Qed.

Lemma count_char_fmt02 n : count_char "/" (fmt02 n) = 0.
Proof.
  unfold fmt02, str_of_nat. destruct (_ <? 2).
  - rewrite count_char_append, count_char_uint. reflexivity.
  - apply count_char_uint.
Qed.

(** For a date without a slash, the directory of every temporary file is
    the temporary directory. *)
Lemma dirname_temp_file date_str i :
  count_char "/" date_str = 0 ->
  dirname (temp_file (temp_dir_of date_str) date_str i) = temp_dir_of date_str.
Proof.
  intros Hd. unfold dirname, temp_file.
  change ("/rmrb_" +:+ ?s) with (String "/" ("rmrb_" +:+ s)).
  assert (count_char "/" (temp_dir_of date_str) = 0) as Hdir.
  { unfold temp_dir_of. by rewrite count_char_append, Hd. }
  rewrite upto_last_slash_append.
  - unfold temp_dir_of at 1 2. simpl negb. simpl andb.
    by apply rstrip_slash_append.
  - rewrite !count_char_append, Hd, count_char_fmt02. reflexivity.
Qed.

(** *** download_rmrb_pdf *)

(** What [download_rmrb_pdf] does once the files are downloaded: merge,
    clean up in both branches, return the path or [None]. *)
Lemma download_rmrb_pdf_after_merge {Page} (env : Env Page) date_str base_url
    w0 pdf_urls w1 files w2 merged w3 :
  let d := date_of env date_str in
  get_pdf_urls env base_url d (with_events w0 [EvPrint (MsgStart d)])
  = (Ok pdf_urls, w1) ->
  pdf_urls <> [] ->
  download_pdfs env pdf_urls d w1 = (Ok files, w2) ->
  files <> [] ->
  merge_pdfs env files (output_file_of d) w2 = (Ok merged, w3) ->
  download_rmrb_pdf env date_str base_url w0
  = (Ok (if merged then Some (output_file_of d) else None),
     if merged then with_events (clean_world env files w3) [EvPrint (MsgFinished d)]
     else clean_world env files w3).
Proof.
  intros d Hget Hurls Hdl Hfiles Hmerge.
  unfold download_rmrb_pdf. fold (date_of env date_str). fold d.
  unfold bind at 1. unfold print at 1, emit at 1. fold (with_events w0 [EvPrint (MsgStart d)]).
  unfold bind at 1. rewrite Hget.
  destruct pdf_urls as [|u urls]; [done|].
  unfold bind at 1. rewrite Hdl.
  destruct files as [|f fl]; [done|].
  cbv zeta. unfold bind at 1. rewrite Hmerge.
  destruct merged.
  - unfold bind at 1. rewrite clean_temp_files_run. reflexivity.
  - unfold bind at 1. rewrite clean_temp_files_run. reflexivity.
Qed.





Lemma download_names_all_failed {Page} (env : Env Page) temp_dir date_str pdf_urls start :
  (forall k url, pdf_urls !! k = Some url -> download_ok env (start + k) url = None) ->
  download_names env temp_dir date_str start pdf_urls = [].
Proof.
  revert start. induction pdf_urls as [|url urls IH]; intros start H; [done|].
  rewrite download_names_failed.
  - apply IH. intros k u Hk. specialize (H (S k) u Hk).
    by replace (S start + k) with (start + S k) by lia.
  - specialize (H 0 url eq_refl). by rewrite Nat.add_0_r in H.
Qed.

(** C6. [download_rmrb_pdf] returns [None], and raises nothing, when
    [get_pdf_urls] returns no link, when [download_pdfs] returns no file
    (which is what it returns when every download fails), and when
    [merge_pdfs] returns [False]; when [merge_pdfs] returns [True] it
    returns the path of the merged file. *)
Theorem download_rmrb_pdf_result {Page} (env : Env Page)
    (date_str : option string) (base_url : string) (w0 : World) :
  let d := date_of env date_str in
  let started := with_events w0 [EvPrint (MsgStart d)] in
  (forall w1,
     get_pdf_urls env base_url d started = (Ok [], w1) ->
     download_rmrb_pdf env date_str base_url w0
     = (Ok None, with_events w1 [EvPrint MsgNoLinks]))
  /\ (forall pdf_urls w1,
        get_pdf_urls env base_url d started = (Ok pdf_urls, w1) ->
        pdf_urls <> [] ->
        (forall w2,
           download_pdfs env pdf_urls d w1 = (Ok [], w2) ->
           download_rmrb_pdf env date_str base_url w0
           = (Ok None, with_events w2 [EvPrint MsgAllDownloadsFailed]))
        /\ ((forall i url, pdf_urls !! i = Some url -> download_ok env i url = None) ->
            makedirs_needed_and_fails env d w1 = None ->
            exists w2, download_pdfs env pdf_urls d w1 = (Ok [], w2))
        /\ (forall files w2 merged w3,
              download_pdfs env pdf_urls d w1 = (Ok files, w2) ->
              files <> [] ->
              merge_pdfs env files (output_file_of d) w2 = (Ok merged, w3) ->
              exists w4,
                download_rmrb_pdf env date_str base_url w0
                = (Ok (if merged then Some (output_file_of d) else None), w4))).
Proof.
  intros d started. subst started.
  split; [|intros pdf_urls w1 Hget Hne; split; [|split]].
  - intros w1 Hget. unfold download_rmrb_pdf. fold (date_of env date_str). fold d.
    unfold bind at 1. unfold print at 1, emit at 1.
    fold (with_events w0 [EvPrint (MsgStart d)]).
    unfold bind at 1. by rewrite Hget.
  - intros w2 Hdl. unfold download_rmrb_pdf. fold (date_of env date_str). fold d.
    unfold bind at 1. unfold print at 1, emit at 1.
    fold (with_events w0 [EvPrint (MsgStart d)]).
    unfold bind at 1. rewrite Hget. destruct pdf_urls as [|u urls]; [done|].
    unfold bind at 1. by rewrite Hdl.
  - intros Hall Hmk. rewrite download_pdfs_run, Hmk.
    rewrite download_names_all_failed by done. by eexists.
  - intros files w2 merged w3 Hdl Hfiles Hmerge. eexists.
    by apply (download_rmrb_pdf_after_merge env date_str base_url w0 pdf_urls w1 files w2).
Qed.

Lemma download_rmrb_pdf_result_witness :
  (download_rmrb_pdf no_downloads None "B" empty_world).1 = Ok None
  /\ (download_rmrb_pdf flaky None "B" empty_world).1
     = Ok (Some "storage/downloads/rmrb/rmrb_2025-01-01.pdf").
Proof.
  split.
  - pose proof (download_rmrb_pdf_result no_downloads None "B" empty_world)
      as (_ & Hrest).
    destruct (Hrest
                ["B/rmrb/pc/layout/202501/01/news.pdf";
                 "B/rmrb/pc/layout/202501/01/news.pdf";
                 "B/rmrb/pc/layout/202501/01/news.pdf"]
                (get_pdf_urls no_downloads "B" "2025-01-01"
                   (with_events empty_world [EvPrint (MsgStart "2025-01-01")])).2
                ltac:(vm_compute; reflexivity) ltac:(discriminate))
      as (Hnone & Hall & _).
    destruct Hall as (w2 & Hdl).
    + intros i url _. reflexivity.
    + vm_compute; reflexivity.
    + by rewrite (Hnone w2 Hdl).
  - pose proof (download_rmrb_pdf_result flaky None "B" empty_world) as (_ & Hrest).
    destruct (Hrest
                ["B/rmrb/pc/layout/202501/01/news.pdf";
                 "B/rmrb/pc/layout/202501/01/news.pdf"]
                (get_pdf_urls flaky "B" "2025-01-01"
                   (with_events empty_world [EvPrint (MsgStart "2025-01-01")])).2
                ltac:(vm_compute; reflexivity) ltac:(discriminate))
      as (_ & _ & Hmerged).
    set (w1 := (get_pdf_urls flaky "B" "2025-01-01"
                  (with_events empty_world [EvPrint (MsgStart "2025-01-01")])).2) in *.
    set (urls := ["B/rmrb/pc/layout/202501/01/news.pdf";
                  "B/rmrb/pc/layout/202501/01/news.pdf"]) in *.
    set (files := ["temp_pdfs_2025-01-01/rmrb_2025-01-01_02.pdf"]).
    set (w2 := (download_pdfs flaky urls "2025-01-01" w1).2).
    destruct (Hmerged files w2 true
                (merge_pdfs flaky files (output_file_of "2025-01-01") w2).2
                ltac:(vm_compute; reflexivity) ltac:(discriminate)
                ltac:(vm_compute; reflexivity))
      as (w4 & Hrun).
    by rewrite Hrun.
Defined.

(** *** What the clean-up does, exactly *)

Lemma elem_of_download_names {Page} (env : Env Page) temp_dir date_str urls start f :
  f ∈ download_names env temp_dir date_str start urls <->
  exists k url r, urls !! k = Some url
                  /\ download_ok env (start + k) url = Some r
                  /\ f = temp_file temp_dir date_str (start + k).
Proof.
  revert start. induction urls as [|u urls IH]; intros start.
  - split; [by intros ?%elem_of_nil|by intros (k & ? & ? & ? & _)].
  - destruct (download_ok env start u) as [r|] eqn:Hok.
    + rewrite (download_names_saved _ _ _ _ _ _ r) by done.
      rewrite elem_of_cons, IH. split.
      * intros [->|(k & url & r' & Hk & Hok' & ->)].
        -- exists 0, u, r. by rewrite Nat.add_0_r.
        -- exists (S k), url, r'. by replace (start + S k) with (S start + k) by lia.
      * intros ([|k] & url & r' & Hk & Hok' & ->).
        -- left. by rewrite Nat.add_0_r.
        -- right. exists k, url, r'.
           by replace (S start + k) with (start + S k) by lia.
    + rewrite download_names_failed by done. rewrite IH. split.
      * intros (k & url & r' & Hk & Hok' & ->).
        exists (S k), url, r'. by replace (start + S k) with (S start + k) by lia.
      * intros ([|k] & url & r' & Hk & Hok' & ->).
        -- injection Hk as <-. rewrite Nat.add_0_r in Hok'. congruence.
        -- exists k, url, r'. by replace (S start + k) with (start + S k) by lia.
Qed.

Lemma NoDup_download_names {Page} (env : Env Page) temp_dir date_str urls start :
  NoDup (download_names env temp_dir date_str start urls).
Proof.
  revert start. induction urls as [|u urls IH]; intros start; [constructor|].
  destruct (download_ok env start u) as [r|] eqn:Hok.
  - rewrite (download_names_saved _ _ _ _ _ _ r) by done.
    constructor; [|apply IH].
    intros (k & url & r' & _ & _ & Heq)%elem_of_download_names.
    apply temp_file_inj in Heq. lia.
  - rewrite download_names_failed by done. apply IH.
Qed.

Lemma remove_world_other {Page} (env : Env Page) j file w p :
  p <> file -> fs (remove_world env j file w) !! p = fs w !! p.
Proof.
  intros Hp. unfold remove_world.
  destruct (os_fault env (Remove j)); [done|].
  destruct (fs w !! file); [|done]. cbn [fs]. by rewrite lookup_delete_ne.
Qed.

Lemma remove_loop_other {Page} (env : Env Page) files start w p :
  p ∉ files -> fs (fold_enum (remove_world env) start files w) !! p = fs w !! p.
Proof.
  revert start w. induction files as [|f files IH]; intros start w Hp; [done|].
  apply not_elem_of_cons in Hp as [Hpf Hp].
  cbn [fold_enum]. rewrite IH by done. by apply remove_world_other.
Qed.

Lemma remove_world_exact {Page} (env : Env Page) j file w :
  remove_world env j file w
  = match remove_failure env (fs w) j file with
    | Some e => with_events w [EvRemove file; EvPrint (MsgRemoveFailed file e)]
    | None => {| fs := delete file (fs w); dirs := dirs w;
                 trace := trace w ++ [EvRemove file] |}
    end.
Proof.
  unfold remove_world, remove_failure.
  destruct (os_fault env (Remove j)); [done|]. by destruct (fs w !! file).
Qed.

Lemma remove_world_events {Page} (env : Env Page) j file w :
  trace (remove_world env j file w) = trace w ++ removal_events env (fs w) j file.
Proof.
  rewrite remove_world_exact. unfold removal_events.
  by destruct (remove_failure env (fs w) j file).
Qed.

Lemma remove_world_lookup {Page} (env : Env Page) j file w :
  fs (remove_world env j file w) !! file
  = match remove_failure env (fs w) j file with
    | Some _ => fs w !! file
    | None => None
    end.
Proof.
  rewrite remove_world_exact.
  destruct (remove_failure env (fs w) j file); [done|]. apply lookup_delete_eq.
Qed.

Lemma removal_events_agree {Page} (env : Env Page)
    (m1 m2 : gmap string (list Byte.byte)) j file :
  m1 !! file = m2 !! file -> removal_events env m1 j file = removal_events env m2 j file.
Proof. intros H. unfold removal_events, remove_failure. by rewrite H. Qed.

Lemma concat_enum_ext {A B} (h1 h2 : nat -> A -> list B) start xs :
  (forall j x, x ∈ xs -> h1 j x = h2 j x) ->
  concat_enum h1 start xs = concat_enum h2 start xs.
Proof.
  revert start. induction xs as [|x xs IH]; intros start H; [done|].
  cbn [concat_enum]. rewrite H by (apply elem_of_cons; by left).
  f_equal. apply IH. intros j y Hy. apply H, elem_of_cons. by right.
Qed.

Lemma remove_loop_events {Page} (env : Env Page) files start w :
  NoDup files ->
  trace (fold_enum (remove_world env) start files w)
  = trace w ++ concat_enum (removal_events env (fs w)) start files.
Proof.
  intros Hnd. revert start w.
  induction Hnd as [|f files Hf Hnd IH]; intros start w.
  - cbn. by rewrite app_nil_r.
  - cbn [fold_enum concat_enum]. rewrite IH, remove_world_events, <- app_assoc.
    do 2 f_equal. apply concat_enum_ext. intros j g Hg.
    apply removal_events_agree, remove_world_other. by intros ->.
Qed.

Lemma remove_loop_lookup {Page} (env : Env Page) files start w k p :
  NoDup files ->
  files !! k = Some p ->
  fs (fold_enum (remove_world env) start files w) !! p
  = match remove_failure env (fs w) (start + k) p with
    | Some _ => fs w !! p
    | None => None
    end.
Proof.
  intros Hnd. revert start w k.
  induction Hnd as [|f files Hf Hnd IH]; intros start w k Hk; [done|].
  cbn [fold_enum]. destruct k as [|k].
  - injection Hk as ->. rewrite Nat.add_0_r.
    rewrite remove_loop_other by done. apply remove_world_lookup.
  - cbn in Hk. rewrite (IH (S start) _ k Hk).
    assert (p <> f) as Hne.
    { intros ->. apply Hf. by eapply list_elem_of_lookup_2. }
    replace (S start + k) with (start + S k) by lia.
    unfold remove_failure. by rewrite !remove_world_other.
Qed.

Lemma fold_remove_dirs {Page} (env : Env Page) files start w :
  dirs (fold_enum (remove_world env) start files w) = dirs w.
Proof. apply remove_loop_dirs. Qed.

(** What [clean_temp_files] does to distinct files, exactly. *)
Lemma clean_world_exact {Page} (env : Env Page) temp_files w :
  NoDup temp_files ->
  let w' := clean_world env temp_files w in
  trace w' = trace w ++ concat_enum (removal_events env (fs w)) 0 temp_files
                     ++ rmdir_events env (fs w') (dirs w) temp_files
  /\ (forall k p, temp_files !! k = Some p ->
        fs w' !! p = match remove_failure env (fs w) k p with
                     | Some _ => fs w !! p
                     | None => None
                     end)
  /\ (forall p, p ∉ temp_files -> fs w' !! p = fs w !! p)
  /\ dirs w' = match temp_files with
               | [] => dirs w
               | first :: _ =>
                   match rmdir_failure env (fs w') (dirs w) (dirname first) with
                   | Some _ => dirs w
                   | None => dirs w ∖ {[dirname first]}
                   end
               end.
Proof.
  intros Hnd w'. subst w'. unfold clean_world.
  rewrite !remove_dir_world_fs.
  set (w1 := fold_enum (remove_world env) 0 temp_files w).
  assert (dirs w1 = dirs w) as Hdirs by apply remove_loop_dirs.
  assert (trace w1 = trace w ++ concat_enum (removal_events env (fs w)) 0 temp_files)
    as Htrace by (by apply remove_loop_events).
  split; [|split; [|split]].
  - unfold remove_dir_world, rmdir_events.
    destruct temp_files as [|first rest]; [by rewrite Htrace, !app_nil_r|].
    cbv zeta. rewrite Hdirs.
    destruct (rmdir_failure env (fs w1) (dirs w) (dirname first));
      cbn [trace with_events]; by rewrite Htrace, <- app_assoc.
  - intros k p Hk. by apply (remove_loop_lookup env temp_files 0 w k p).
  - intros p Hp. by apply remove_loop_other.
  - unfold remove_dir_world. destruct temp_files as [|first rest]; [done|].
    cbv zeta. rewrite Hdirs.
    by destruct (rmdir_failure env (fs w1) (dirs w) (dirname first)).
Qed.

(** C8, the claim as worded fails.  The write of the first temporary file
    fails after the file was opened; the two other downloads and the
    merge succeed.  [download_rmrb_pdf] returns the output path, yet the
    first temporary file is still there and its removal was never
    attempted: only the files [download_pdfs] returned are handed to
    [clean_temp_files]; and the temporary directory, not being empty,
    is still there too. *)
Lemma cleanup_misses_unfinished_file :
  let run := download_rmrb_pdf write_fails None "B" empty_world in
  run.1 = Ok (Some "storage/downloads/rmrb/rmrb_2025-01-01.pdf")
  /\ is_Some (fs run.2 !! "temp_pdfs_2025-01-01/rmrb_2025-01-01_01.pdf")
  /\ removals (trace run.2)
     = [EvRemove "temp_pdfs_2025-01-01/rmrb_2025-01-01_02.pdf";
        EvRemove "temp_pdfs_2025-01-01/rmrb_2025-01-01_03.pdf";
        EvRmdir "temp_pdfs_2025-01-01"]
  /\ elements (dirs run.2) = ["temp_pdfs_2025-01-01"]
  /\ drop (length (trace run.2) - 3) (trace run.2)
     = [EvRmdir "temp_pdfs_2025-01-01";
        EvPrint (MsgRmdirFailed "temp_pdfs_2025-01-01"
                   (Exception "OSError: directory not empty"));
        EvPrint (MsgFinished "2025-01-01")].
Proof.
  intros run. split; [by vm_compute|]. split; [by vm_compute; eexists|].
  split; [by vm_compute|]. split; by vm_compute.
Qed.

(** C8, amended.  [clean_temp_files] raises nothing, whatever it is
    given.  On distinct files it attempts [os.remove] on each, in order,
    then [os.rmdir] on the directory of the first: a removal that raises
    prints the message of its handler and changes nothing, one that does
    not raise prints nothing and removes the file or the directory, and
    no other file is touched.  After [merge_pdfs], whether it returned
    [True] or [False], [download_rmrb_pdf] runs it on the files
    [download_pdfs] returned, which are distinct, and then returns the
    path or [None].  For a date without a slash the directory is the
    temporary directory. *)
Theorem cleanup_of_returned_files {Page} (env : Env Page) :
  (forall temp_files w, exists w', clean_temp_files env temp_files w = (Ok tt, w'))
  /\ (forall temp_files w w',
        NoDup temp_files ->
        clean_temp_files env temp_files w = (Ok tt, w') ->
        trace w' = trace w ++ concat_enum (removal_events env (fs w)) 0 temp_files
                           ++ rmdir_events env (fs w') (dirs w) temp_files
        /\ (forall k p, temp_files !! k = Some p ->
              fs w' !! p = match remove_failure env (fs w) k p with
                           | Some _ => fs w !! p
                           | None => None
                           end)
        /\ (forall p, p ∉ temp_files -> fs w' !! p = fs w !! p)
        /\ dirs w' = match temp_files with
                     | [] => dirs w
                     | first :: _ =>
                         match rmdir_failure env (fs w') (dirs w) (dirname first) with
                         | Some _ => dirs w
                         | None => dirs w ∖ {[dirname first]}
                         end
                     end)
  /\ (forall date_str base_url w0 pdf_urls w1 files w2 merged w3,
        let d := date_of env date_str in
        get_pdf_urls env base_url d (with_events w0 [EvPrint (MsgStart d)])
        = (Ok pdf_urls, w1) ->
        pdf_urls <> [] ->
        download_pdfs env pdf_urls d w1 = (Ok files, w2) ->
        files <> [] ->
        merge_pdfs env files (output_file_of d) w2 = (Ok merged, w3) ->
        NoDup files
        /\ exists w4 w5,
             clean_temp_files env files w3 = (Ok tt, w4)
             /\ download_rmrb_pdf env date_str base_url w0
                = (Ok (if merged then Some (output_file_of d) else None), w5)
             /\ w5 = (if merged then with_events w4 [EvPrint (MsgFinished d)] else w4))
  /\ (forall date_str i,
        count_char "/" date_str = 0 ->
        dirname (temp_file (temp_dir_of date_str) date_str i) = temp_dir_of date_str).
Proof.
  split; [|split; [|split]].
  - intros temp_files w. eexists. apply clean_temp_files_run.
  - intros temp_files w w' Hnd Hrun. rewrite clean_temp_files_run in Hrun.
    injection Hrun as <-. by apply clean_world_exact.
  - intros date_str base_url w0 pdf_urls w1 files w2 merged w3 d
      Hget Hurls Hdl Hfiles Hmerge.
    split.
    + apply download_pdfs_ok in Hdl as [-> _]. apply NoDup_download_names.
    + exists (clean_world env files w3),
        (if merged then with_events (clean_world env files w3) [EvPrint (MsgFinished d)]
         else clean_world env files w3).
      split; [apply clean_temp_files_run|].
      split; [|done].
      by apply (download_rmrb_pdf_after_merge env date_str base_url w0
                  pdf_urls w1 files w2).
  - apply dirname_temp_file.
Qed.

Lemma cleanup_of_returned_files_witness :
  let files := ["temp_pdfs_2025-01-01/rmrb_2025-01-01_02.pdf"] in
  let w3 := (merge_pdfs flaky files (output_file_of "2025-01-01")
               (download_pdfs flaky
                  ["B/rmrb/pc/layout/202501/01/news.pdf";
                   "B/rmrb/pc/layout/202501/01/news.pdf"] "2025-01-01"
                  (get_pdf_urls flaky "B" "2025-01-01"
                     (with_events empty_world [EvPrint (MsgStart "2025-01-01")])).2).2).2 in
  let w4 := (clean_temp_files flaky files w3).2 in
  (download_rmrb_pdf flaky None "B" empty_world).1
  = Ok (Some "storage/downloads/rmrb/rmrb_2025-01-01.pdf")
  /\ trace w4
     = trace w3 ++ [EvRemove "temp_pdfs_2025-01-01/rmrb_2025-01-01_02.pdf";
                    EvPrint (MsgRemoveFailed "temp_pdfs_2025-01-01/rmrb_2025-01-01_02.pdf"
                               (Exception "busy"));
                    EvRmdir "temp_pdfs_2025-01-01";
                    EvPrint (MsgRmdirFailed "temp_pdfs_2025-01-01"
                               (Exception "OSError: directory not empty"))]
  /\ dirname (temp_file (temp_dir_of "2025-01-01") "2025-01-01" 1)
     = "temp_pdfs_2025-01-01".
Proof.
  intros files w3 w4.
  pose proof (cleanup_of_returned_files flaky) as (_ & Hexact & Hrun & Hdir).
  set (urls := ["B/rmrb/pc/layout/202501/01/news.pdf";
                "B/rmrb/pc/layout/202501/01/news.pdf"]) in *.
  set (w1 := (get_pdf_urls flaky "B" "2025-01-01"
                (with_events empty_world [EvPrint (MsgStart "2025-01-01")])).2) in *.
  set (w2 := (download_pdfs flaky urls "2025-01-01" w1).2) in *.
  destruct (Hrun None "B" empty_world urls w1 files w2 true w3
              ltac:(vm_compute; reflexivity) ltac:(discriminate)
              ltac:(vm_compute; reflexivity) ltac:(discriminate)
              ltac:(vm_compute; reflexivity))
    as (Hnd & w4' & w5 & Hclean & Hres & _).
  split; [by rewrite Hres|]. split; [|apply Hdir; reflexivity].
  destruct (Hexact files w3 w4 Hnd ltac:(vm_compute; reflexivity)) as (Htrace & _).
  rewrite Htrace. reflexivity.
Defined.

End RmrbDownFacts.

(** ** rmrb_down.py: further properties *)

Module RmrbDownMore.
Import RmrbDown PyFacts RmrbDownFacts.

#[local] Arguments startswith : simpl never.
#[local] Arguments contains : simpl never.

(** *** The page number in a link of the catalog *)

Lemma startswith_cons a p b s :
  startswith (String a p) (String b s) = Ascii.eqb a b && startswith p s.
Proof. reflexivity. Qed.

Lemma contains_cons p c s :
  contains p (String c s) = startswith p (String c s) || contains p s.
Proof. reflexivity. Qed.

Lemma startswith_append p s : startswith p (p +:+ s) = true.
Proof.
  induction p as [|a p IH]; [by destruct s|].
  by rewrite append_cons, startswith_cons, Ascii.eqb_refl, IH.
Qed.

Lemma startswith_append_l p a b : startswith p a = true -> startswith p (a +:+ b) = true.
Proof.
  revert a. induction p as [|c p IH]; intros [|d a] H; try done.
  rewrite append_cons, startswith_cons in *.
  apply andb_true_iff in H as [-> H]. by rewrite IH.
Qed.

Lemma startswith_inv p s : startswith p s = true -> exists rest, s = p +:+ rest.
Proof.
  revert s. induction p as [|c p IH]; intros s H; [by exists s|].
  destruct s as [|d s]; [done|]. rewrite startswith_cons in H.
  apply andb_true_iff in H as [Hc H]. apply Ascii.eqb_eq in Hc as ->.
  destruct (IH s H) as [rest ->]. by exists rest.
Qed.

Lemma drop_str_append p s : drop_str (String.length p) (p +:+ s) = s.
Proof. induction p as [|a p IH]; [by destruct s|]. by rewrite append_cons. Qed.

Lemma contains_here p s : startswith p s = true -> contains p s = true.
Proof.
  intros H. destruct s as [|c s].
  - change (contains p "") with (startswith p "" || false). by rewrite H.
  - by rewrite contains_cons, H.
Qed.

Lemma contains_append_r p a s : contains p s = true -> contains p (a +:+ s) = true.
Proof.
  intros H. induction a as [|c a IH]; [done|].
  rewrite append_cons, contains_cons, IH. apply orb_true_r.
Qed.

Lemma span_digits_spec s ds tl :
  span_digits s = (ds, tl) ->
  s = string_of_list_ascii ds +:+ tl /\ Forall (fun c => is_digit c = true) ds.
Proof.
  revert ds tl. induction s as [|c s IH]; intros ds tl; cbn [span_digits].
  - by intros [= <- <-].
  - destruct (is_digit c) eqn:Hc.
    + destruct (span_digits s) as [ds' tl'] eqn:Hs. intros [= <- <-].
      destruct (IH ds' tl' eq_refl) as [-> Hall]. split; [done|by constructor].
    + by intros [= <- <-].
Qed.

Lemma span_digits_append ds rest :
  Forall (fun c => is_digit c = true) ds ->
  span_digits (string_of_list_ascii ds +:+ rest)
  = (ds ++ (span_digits rest).1, (span_digits rest).2).
Proof.
  induction 1 as [|c ds Hc _ IH].
  { cbn [string_of_list_ascii]. rewrite append_nil_l. by destruct (span_digits rest). }
  cbn [string_of_list_ascii]. rewrite append_cons. cbn [span_digits].
  by rewrite Hc, IH.
Qed.

Lemma uint_digits d :
  Forall (fun c => is_digit c = true) (list_ascii_of_string (NilEmpty.string_of_uint d)).
Proof. induction d; cbn; constructor; done. Qed.

Lemma uint_value d acc :
  foldl (fun acc c => 10 * acc + (nat_of_ascii c - 48)) acc
    (list_ascii_of_string (NilEmpty.string_of_uint d))
  = Nat.of_uint_acc d acc.
Proof.
  revert acc. induction d; intros acc; cbn [NilEmpty.string_of_uint
    list_ascii_of_string foldl Nat.of_uint_acc]; [done|..];
    rewrite IHd, Nat.tail_mul_spec; f_equal;
    match goal with
    | |- context [nat_of_ascii ?c - 48] =>
        let v := eval vm_compute in (nat_of_ascii c - 48) in
        change (nat_of_ascii c - 48) with v
    end; lia.
Qed.

Lemma fmt02_digits n :
  Forall (fun c => is_digit c = true) (list_ascii_of_string (fmt02 n)).
Proof.
  unfold fmt02, str_of_nat. destruct (_ <? 2).
  - change ("0" +:+ ?s) with (String "0" s). cbn [list_ascii_of_string].
    constructor; [done|apply uint_digits].
  - apply uint_digits.
Qed.

Lemma fmt02_value n : int_of_digits (list_ascii_of_string (fmt02 n)) = n.
Proof.
  unfold int_of_digits, fmt02, str_of_nat. destruct (_ <? 2).
  - change ("0" +:+ ?s) with (String "0" s). cbn [list_ascii_of_string foldl].
    rewrite uint_value. change (Nat.of_uint_acc ?d (10 * 0 + _)) with (Nat.of_uint d).
    apply DecimalNat.Unsigned.of_to.
  - rewrite uint_value. apply DecimalNat.Unsigned.of_to.
Qed.

Lemma fmt02_nonempty n : list_ascii_of_string (fmt02 n) <> [].
Proof.
  unfold fmt02, str_of_nat. destruct (_ <? 2) eqn:E; [done|].
  destruct (NilEmpty.string_of_uint (Nat.to_uint n)); [done|done].
Qed.

Lemma re_search_node_anchor n :
  re_search_node ("node_" +:+ fmt02 n +:+ ".html")
  = Some (list_ascii_of_string (fmt02 n)).
Proof.
  assert (match_node_here ("node_" +:+ fmt02 n +:+ ".html")
          = Some (list_ascii_of_string (fmt02 n))) as H.
  { unfold match_node_here. rewrite startswith_append.
    change 5 with (String.length "node_"). rewrite drop_str_append.
    rewrite <- (string_of_list_ascii_of_string (fmt02 n)) at 1.
    rewrite span_digits_append by apply fmt02_digits.
    cbn [span_digits is_digit fst snd]. rewrite app_nil_r.
    pose proof (fmt02_nonempty n). by destruct (list_ascii_of_string (fmt02 n)). }
  change ("node_" +:+ ?s) with (String "n" ("ode_" +:+ s)) in *.
  cbn [re_search_node]. by rewrite H.
Qed.

Lemma is_node_link_anchor n : is_node_link (href (node_anchor n)) = true.
Proof.
  unfold is_node_link, node_anchor. cbn [href].
  rewrite (contains_here "node_") by apply startswith_append.
  rewrite (contains_append_r ".html" "node_"), ?andb_true_r.
  - by change ("node_" +:+ ?s) with (String "n" ("ode_" +:+ s)).
  - apply contains_append_r. reflexivity.
Qed.

Lemma find_all_node_anchors ns :
  find_all is_node_link (node_anchor <$> ns) = node_anchor <$> ns.
Proof.
  unfold find_all. induction ns as [|n ns IH]; [done|].
  rewrite fmap_cons. cbn [List.filter]. by rewrite is_node_link_anchor, IH.
Qed.

Lemma int_of_str_fmt02 n :
  String.length (fmt02 n) <= int_max_str_digits ->
  int_of_str (list_ascii_of_string (fmt02 n)) = Ok n.
Proof.
  intros Hlen. unfold int_of_str.
  assert (length (list_ascii_of_string (fmt02 n)) = String.length (fmt02 n)) as ->.
  { generalize (fmt02 n). intros s. induction s as [|c s IH]; [done|].
    cbn [list_ascii_of_string length String.length]. by rewrite IH. }
  destruct (Nat.ltb_spec int_max_str_digits (String.length (fmt02 n))) as [Hlt|_]; [lia|].
  by rewrite fmt02_value.
Qed.

Lemma max_page_of_node_anchors ns :
  Forall (fun n => String.length (fmt02 n) <= int_max_str_digits) ns ->
  max_page_of (node_anchor <$> ns) = Ok (max_list ns).
Proof.
  intros Hns. unfold max_page_of.
  assert (forall acc,
    foldl (fun acc link =>
             match acc with
             | Raise e => Raise e
             | Ok max_page =>
                 match re_search_node (get_href link) with
                 | Some ds =>
                     match int_of_str ds with
                     | Ok page_num => Ok (Nat.max max_page page_num)
                     | Raise e => Raise e
                     end
                 | None => Ok max_page
                 end
             end) (Ok acc) (node_anchor <$> ns) = Ok (Nat.max acc (max_list ns))) as H.
  { induction Hns as [|n ns Hn _ IH]; intros acc; [cbn; f_equal; lia|].
    rewrite fmap_cons. cbn [foldl].
    change (get_href (node_anchor n)) with ("node_" +:+ fmt02 n +:+ ".html").
    rewrite re_search_node_anchor, (int_of_str_fmt02 n Hn), IH.
    change (max_list (n :: ns)) with (Nat.max n (max_list ns)). f_equal. lia. }
  by rewrite H.
Qed.

(** X1. When the catalog page is fetched and parsed and the anchors that
    pass the filter are links to the pages [ns] (named [node_NN.html],
    each number written with no more digits than [int] converts),
    [get_page_count] returns the largest of [ns], not their number, and
    0 when there is none; it makes one request and prints nothing. *)
Theorem get_page_count_is_max {Page} (env : Env Page) (url : string) (w : World)
    (r : Response) (soup : list Anchor) (ns : list nat) :
  http env CatalogGet url = Ok r ->
  html_parser env (text r) = Ok soup ->
  find_all is_node_link soup = node_anchor <$> ns ->
  Forall (fun n => String.length (fmt02 n) <= int_max_str_digits) ns ->
  get_page_count env url w = (Ok (max_list ns), with_events w [EvGet url 10])
  /\ (forall n, n ∈ ns -> n <= max_list ns)
  /\ (ns = [] -> get_page_count env url w = (Ok 0, with_events w [EvGet url 10])).
Proof.
  intros Hr Hs Hns Hlen.
  assert (get_page_count env url w = (Ok (max_list ns), with_events w [EvGet url 10]))
    as Hrun.
  { rewrite get_page_count_run. unfold page_count_of, page_count_events.
    by rewrite Hr, Hs, Hns, (max_page_of_node_anchors ns Hlen). }
  split; [done|]. split.
  - intros n Hn. by apply max_list_elem_of_le.
  - intros ->. exact Hrun.
Qed.

Lemma get_page_count_is_max_witness :
  let soup := [ {| href := None |}; node_anchor 1; {| href := Some "index.html" |};
                node_anchor 5; node_anchor 3 ] in
  let env := toy (fun _ => false) (fun _ => false) no_faults in
  let env' := {| http := http env; html_parser := fun _ => Ok soup;
                 os_fault := os_fault env; pdf_parse := pdf_parse env;
                 pdf_serialize := pdf_serialize env; today := today env |} in
  (get_page_count env' "B/node_01.html" empty_world).1 = Ok 5.
Proof.
  intros soup env env'.
  assert (Forall (fun n => String.length (fmt02 n) <= int_max_str_digits) [1; 5; 3])
    as Hlen.
  { repeat constructor; apply Nat.leb_le; vm_compute; reflexivity. }
  destruct (get_page_count_is_max env' "B/node_01.html" empty_world
              {| text := "node_03.html"; content := [] |} soup [1; 5; 3]
              eq_refl eq_refl eq_refl Hlen) as [H _].
  by rewrite H.
Defined.

Lemma match_node_here_sound s ds :
  match_node_here s = Some ds ->
  exists post, s = "node_" +:+ string_of_list_ascii ds +:+ ".html" +:+ post
               /\ ds <> [] /\ Forall (fun c => is_digit c = true) ds.
Proof.
  unfold match_node_here. destruct (startswith "node_" s) eqn:Hp; [|done].
  apply startswith_inv in Hp as [rest ->].
  change 5 with (String.length "node_"). rewrite drop_str_append.
  destruct (span_digits rest) as [ds' tl] eqn:Hspan.
  apply span_digits_spec in Hspan as [-> Hall].
  destruct ds' as [|c ds']; [done|].
  destruct (startswith ".html" tl) eqn:Htl; [|done]. intros [= <-].
  apply startswith_inv in Htl as [post ->]. exists post. done.
Qed.

(** X2. What the pattern [node_(\d+)\.html] finds in an href: when
    [re.search] matches, the href holds [node_], then the digits of the
    group, at least one, then [.html]; so the number read is that of a
    link of that shape, wherever it stands in the href.  For an href
    [node_NN.html] as the site and [page_url] write it, the number read
    back is NN. *)
Theorem re_search_node_sound (s : string) (ds : list ascii) :
  re_search_node s = Some ds ->
  (exists pre post,
     s = pre +:+ "node_" +:+ string_of_list_ascii ds +:+ ".html" +:+ post)
  /\ ds <> [] /\ Forall (fun c => is_digit c = true) ds
  /\ forall n, option_map int_of_digits
                 (re_search_node ("node_" +:+ fmt02 n +:+ ".html")) = Some n.
Proof.
  intros H.
  assert ((exists pre post,
             s = pre +:+ "node_" +:+ string_of_list_ascii ds +:+ ".html" +:+ post)
          /\ ds <> [] /\ Forall (fun c => is_digit c = true) ds) as (Hs & Hne & Hall).
  { induction s as [|c s IH].
    - discriminate H.
    - cbn [re_search_node] in H.
      destruct (match_node_here (String c s)) eqn:E.
      + injection H as ->.
        apply match_node_here_sound in E as (post & -> & ? & ?).
        split; [by exists "", post|done].
      + destruct (IH H) as ((pre & post & ->) & ? & ?).
        split; [by exists (String c pre), post|done]. }
  do 3 (split; [done|]).
  intros n. by rewrite re_search_node_anchor; cbn [option_map]; rewrite fmt02_value.
Qed.

Lemma re_search_node_sound_witness :
  (exists pre post,
     "../node_020.html#top"
     = pre +:+ "node_" +:+ string_of_list_ascii ["0"; "2"; "0"]%char +:+ ".html" +:+ post)
  /\ option_map int_of_digits (re_search_node ("node_" +:+ fmt02 7 +:+ ".html")) = Some 7.
Proof.
  destruct (re_search_node_sound "../node_020.html#top" ["0"; "2"; "0"]%char eq_refl)
    as (Hs & _ & _ & Hn).
  split; [exact Hs | apply Hn].
Defined.

Lemma download_rmrb_pdf_start {Page} (env : Env Page) date_str base_url w0 :
  let d := date_of env date_str in
  download_rmrb_pdf env date_str base_url w0
  = match get_pdf_urls env base_url d (with_events w0 [EvPrint (MsgStart d)]) with
    | (Raise e, w1) => (Raise e, w1)
    | (Ok [], w1) => (Ok None, with_events w1 [EvPrint MsgNoLinks])
    | (Ok (u :: urls), w1) =>
        match download_pdfs env (u :: urls) d w1 with
        | (Raise e, w2) => (Raise e, w2)
        | (Ok [], w2) => (Ok None, with_events w2 [EvPrint MsgAllDownloadsFailed])
        | (Ok (f :: files), w2) =>
            match merge_pdfs env (f :: files) (output_file_of d) w2 with
            | (Raise e, w3) => (Raise e, w3)
            | (Ok true, w3) =>
                (Ok (Some (output_file_of d)),
                 with_events (clean_world env (f :: files) w3) [EvPrint (MsgFinished d)])
            | (Ok false, w3) => (Ok None, clean_world env (f :: files) w3)
            end
        end
    end.
Proof.
  intros d. unfold download_rmrb_pdf. fold (date_of env date_str). fold d.
  unfold bind at 1. unfold print at 1, emit at 1.
  fold (with_events w0 [EvPrint (MsgStart d)]).
  unfold bind at 1.
  destruct (get_pdf_urls env base_url d _) as [[[|u urls]|e] w1]; [done| |done].
  unfold bind at 1.
  destruct (download_pdfs env (u :: urls) d w1) as [[[|f files]|e] w2]; [done| |done].
  cbv zeta. unfold bind at 1.
  destruct (merge_pdfs env (f :: files) (output_file_of d) w2) as [[[|]|e] w3];
    [| |done].
  - unfold bind at 1. by rewrite clean_temp_files_run.
  - unfold bind at 1. by rewrite clean_temp_files_run.
Qed.

(** X3. A catalog that is fetched and parsed but links to no page gives
    the count 0, not the fallback 8: [download_rmrb_pdf] then requests
    nothing but the catalog, downloads nothing and returns [None]. *)
Theorem no_page_links_no_download {Page} (env : Env Page)
    (date_str base_url year month day : string) (w0 : World)
    (r : Response) (soup : list Anchor) :
  split "-" date_str = [year; month; day] ->
  let catalog_url := page_url base_url year month day 1 in
  http env CatalogGet catalog_url = Ok r ->
  html_parser env (text r) = Ok soup ->
  find_all is_node_link soup = [] ->
  download_rmrb_pdf env (Some date_str) base_url w0
  = (Ok None,
     with_events w0 [EvPrint (MsgStart date_str); EvGet catalog_url 10;
                     EvPrint (MsgPageCount 0); EvPrint MsgNoLinks]).
Proof.
  intros Hd catalog_url Hr Hs Hnone.
  rewrite download_rmrb_pdf_start. cbn [date_of].
  rewrite (get_pdf_urls_run env base_url date_str year month day _ Hd).
  fold catalog_url. unfold page_count_of, page_count_events.
  rewrite Hr, Hs, Hnone. cbn. by rewrite !with_events_app.
Qed.

Lemma no_page_links_no_download_witness :
  (download_rmrb_pdf (linking "foo.pdf") (Some "2025-01-01") "B" empty_world).1 = Ok None
  /\ fetched (trace (download_rmrb_pdf (linking "foo.pdf") (Some "2025-01-01") "B"
                       empty_world).2)
     = ["B/rmrb/pc/layout/202501/01/node_01.html"].
Proof.
  rewrite (no_page_links_no_download (linking "foo.pdf") "2025-01-01" "B"
             "2025" "01" "01" empty_world
             {| text := "<a name=top></a><a href=...>"; content := [] |}
             [ {| href := None |}; {| href := Some "foo.pdf" |} ]
             eq_refl eq_refl eq_refl eq_refl).
  split; reflexivity.
Defined.

(** X4. A date that does not split on [-] into exactly three parts makes
    [get_pdf_urls] raise before any request, and [download_rmrb_pdf]
    raises with it instead of returning [None]. *)
Theorem malformed_date_raises {Page} (env : Env Page)
    (date_str base_url : string) (w0 : World) :
  length (split "-" date_str) <> 3 ->
  get_pdf_urls env base_url date_str w0 = (Raise (Exception "ValueError"), w0)
  /\ download_rmrb_pdf env (Some date_str) base_url w0
     = (Raise (Exception "ValueError"),
        with_events w0 [EvPrint (MsgStart date_str)]).
Proof.
  intros Hlen.
  assert (forall w, get_pdf_urls env base_url date_str w
                    = (Raise (Exception "ValueError"), w)) as Hget.
  { intros w. unfold get_pdf_urls.
    destruct (split "-" date_str) as [|y [|m [|d [|x rest]]]]; done. }
  split; [apply Hget|].
  rewrite download_rmrb_pdf_start. cbn [date_of]. by rewrite Hget.
Qed.

Lemma malformed_date_raises_witness :
  (download_rmrb_pdf offline (Some "2025/01/01") "B" empty_world).1
  = Raise (Exception "ValueError").
Proof.
  destruct (malformed_date_raises offline "2025/01/01" "B" empty_world) as [_ H].
  - vm_compute. lia.
  - by rewrite H.
Defined.

(** *** The temporary directory *)

Lemma download_loop_fetched {Page} (env : Env Page) temp_dir date_str urls start w :
  fetched (trace (download_loop_world env temp_dir date_str start urls w))
  = fetched (trace w) ++ urls.
Proof. by rewrite download_loop_trace, fetched_app, fetched_download_loop. Qed.

Lemma made_dirs_download_loop {Page} (env : Env Page) temp_dir date_str urls start :
  made_dirs (concat_enum (download_events env temp_dir date_str) start urls) = [].
Proof.
  revert start. induction urls as [|u urls IH]; intros start; [done|].
  cbn [concat_enum]. unfold made_dirs in *. rewrite omap_app, IH, app_nil_r.
  unfold download_events. cbv zeta.
  destruct (http env (PdfGet start) u); [|done].
  destruct (os_fault env (OpenTemp start)); [done|].
  by destruct (os_fault env (WriteTemp start)).
Qed.

(** X5. [download_pdfs] raises exactly when the temporary directory does
    not exist and [os.makedirs] fails, and then no URL has been
    requested; when the directory exists it is not made again; and when
    [download_pdfs] returns, the directory exists. *)
Theorem download_pdfs_directory {Page} (env : Env Page)
    (pdf_urls : list string) (date_str : string) (w : World) :
  let temp_dir := temp_dir_of date_str in
  let run := download_pdfs env pdf_urls date_str w in
  (forall e, run.1 = Raise e <->
             exists_in w temp_dir = false /\ os_fault env Makedirs = Some e)
  /\ (is_ok run.1 = false -> fetched (trace run.2) = fetched (trace w))
  /\ (exists_in w temp_dir = true ->
      made_dirs (trace run.2) = made_dirs (trace w) /\ dirs run.2 = dirs w)
  /\ (is_ok run.1 = true -> exists_in run.2 temp_dir = true
                            \/ is_Some (fs w !! temp_dir)).
Proof.
  intros temp_dir run. subst run temp_dir. rewrite download_pdfs_run.
  unfold makedirs_needed_and_fails, download_start_world, exists_in.
  destruct (bool_decide (temp_dir_of date_str ∈ dirs w)
            || bool_decide (is_Some (fs w !! temp_dir_of date_str))) eqn:Hex.
  - cbn [fst snd]. split; [|split; [|split]].
    + intros e. split; [done|by intros [? _]].
    + done.
    + intros _. split; [|apply download_loop_dirs].
      rewrite download_loop_trace. unfold made_dirs at 1. rewrite omap_app.
      fold (made_dirs (trace w)).
      fold (made_dirs (concat_enum
                         (download_events env (temp_dir_of date_str) date_str) 0 pdf_urls)).
      by rewrite made_dirs_download_loop, app_nil_r.
    + intros _. apply orb_true_iff in Hex as [Hd|Hf].
      * left. rewrite download_loop_dirs. by rewrite Hd.
      * right. by apply bool_decide_eq_true in Hf.
  - destruct (os_fault env Makedirs) as [e|] eqn:Hmk; cbn [fst snd].
    + split; [|split; [|split]]; try done.
      * intros e'. split; [by intros [= ->]|by intros [_ [= ->]]].
      * intros _. cbn. by rewrite fetched_app, app_nil_r.
    + split; [|split; [|split]]; try done.
      * intros e'. split; [done|by intros [_ ?]].
      * intros _. left. rewrite download_loop_dirs. cbn [dirs].
        apply orb_true_iff. left. apply bool_decide_eq_true. set_solver.
Qed.

(** The directory cannot be made. *)
Lemma download_pdfs_directory_witness :
  let env := toy (fun _ => false) (fun _ => false)
               (fun c => match c with
                         | Makedirs => Some (Exception "PermissionError")
                         | _ => None
                         end) in
  (download_pdfs env ["u1"] "2025-01-01" empty_world).1
  = Raise (Exception "PermissionError")
  /\ fetched (trace (download_pdfs env ["u1"] "2025-01-01" empty_world).2) = [].
Proof.
  intros env.
  destruct (download_pdfs_directory env ["u1"] "2025-01-01" empty_world)
    as (Hraise & Hfetched & _).
  assert ((download_pdfs env ["u1"] "2025-01-01" empty_world).1
          = Raise (Exception "PermissionError")) as H
    by (apply Hraise; split; reflexivity).
  split; [exact H|]. apply Hfetched. by rewrite H.
Defined.

(** *** The files the downloader returns *)

(** X6. The files [download_pdfs] returns are pairwise distinct, each is
    named after the position of its URL in the input list (not after the
    number of downloads that succeeded), and when [download_pdfs] returns
    each of them holds the body of the response to its URL. *)
Theorem download_pdfs_files {Page} (env : Env Page)
    (pdf_urls : list string) (date_str : string) (w : World)
    (files : list string) (w' : World) :
  download_pdfs env pdf_urls date_str w = (Ok files, w') ->
  NoDup files
  /\ forall f, f ∈ files <->
       exists i url r,
         pdf_urls !! i = Some url
         /\ http env (PdfGet i) url = Ok r
         /\ os_fault env (OpenTemp i) = None /\ os_fault env (WriteTemp i) = None
         /\ f = temp_file (temp_dir_of date_str) date_str i
         /\ fs w' !! f = Some (content r).
Proof.
  intros Hrun. apply download_pdfs_ok in Hrun as [-> ->].
  split; [apply NoDup_download_names|].
  intros f. rewrite elem_of_download_names. cbn [Nat.add]. split.
  - intros (i & url & r & Hi & Hok & ->). exists i, url, r.
    pose proof (download_loop_fs_saved env (temp_dir_of date_str) date_str pdf_urls 0
                  (download_start_world date_str w) i url r Hi Hok) as Hfs.
    unfold download_ok in Hok.
    destruct (http env (PdfGet i) url) as [r'|]; [|done].
    destruct (os_fault env (OpenTemp i)); [done|].
    destruct (os_fault env (WriteTemp i)); [done|].
    injection Hok as ->. done.
  - intros (i & url & r & Hi & Hr & Ho & Hw & -> & _). exists i, url, r.
    unfold download_ok. by rewrite Hr, Ho, Hw.
Qed.

Lemma download_pdfs_files_witness :
  let run := download_pdfs second_fails ["a"; "b"; "c"] "2025-01-01" empty_world in
  NoDup ["temp_pdfs_2025-01-01/rmrb_2025-01-01_01.pdf";
         "temp_pdfs_2025-01-01/rmrb_2025-01-01_03.pdf"]
  /\ fs run.2 !! "temp_pdfs_2025-01-01/rmrb_2025-01-01_03.pdf"
     = Some (list_byte_of_string "c").
Proof.
  intros run.
  destruct (download_pdfs_files second_fails ["a"; "b"; "c"] "2025-01-01" empty_world
              ["temp_pdfs_2025-01-01/rmrb_2025-01-01_01.pdf";
               "temp_pdfs_2025-01-01/rmrb_2025-01-01_03.pdf"] run.2
              ltac:(vm_compute; reflexivity)) as [Hnd Hmem].
  split; [exact Hnd|].
  destruct (proj1 (Hmem "temp_pdfs_2025-01-01/rmrb_2025-01-01_03.pdf"))
    as (i & url & r & Hi & Hr & _ & _ & Hname & Hfs).
  - apply elem_of_cons. right. apply elem_of_cons. by left.
  - change "temp_pdfs_2025-01-01/rmrb_2025-01-01_03.pdf"
      with (temp_file (temp_dir_of "2025-01-01") "2025-01-01" 2) in Hname.
    apply temp_file_inj in Hname. subst i.
    injection Hi as <-. injection Hr as <-. exact Hfs.
Defined.

Lemma sleeps_app t1 t2 : sleeps (t1 ++ t2) = sleeps t1 ++ sleeps t2.
Proof. apply omap_app. Qed.

Lemma sleeps_download_loop {Page} (env : Env Page) temp_dir date_str urls start :
  sleeps (concat_enum (download_events env temp_dir date_str) start urls)
  = replicate (length (download_names env temp_dir date_str start urls)) 1.
Proof.
  revert start. induction urls as [|u urls IH]; intros start; [done|].
  cbn [concat_enum]. rewrite sleeps_app, IH.
  unfold download_names. cbn [concat_enum]. rewrite length_app.
  unfold download_events, downloaded, download_ok. cbv zeta.
  destruct (http env (PdfGet start) u); [|done].
  destruct (os_fault env (OpenTemp start)); [done|].
  by destruct (os_fault env (WriteTemp start)).
Qed.

(** X7. [download_pdfs] sleeps one second after every download it saved,
    the last one included, and does not sleep after a download that
    failed: the sleeps it adds are as many as the files it returns. *)
Theorem download_pdfs_sleeps {Page} (env : Env Page)
    (pdf_urls : list string) (date_str : string) (w : World)
    (files : list string) (w' : World) :
  download_pdfs env pdf_urls date_str w = (Ok files, w') ->
  sleeps (trace w') = sleeps (trace w) ++ replicate (length files) 1.
Proof.
  intros Hrun. apply download_pdfs_ok in Hrun as [-> ->].
  rewrite download_loop_trace, sleeps_app, sleeps_download_loop. f_equal.
  unfold download_start_world. destruct (_ || _); [done|].
  cbn [trace]. by rewrite sleeps_app, app_nil_r.
Qed.

Lemma download_pdfs_sleeps_witness :
  sleeps (trace (download_pdfs second_fails ["a"; "b"; "c"] "2025-01-01" empty_world).2)
  = [1; 1].
Proof.
  apply (download_pdfs_sleeps second_fails ["a"; "b"; "c"] "2025-01-01" empty_world
           ["temp_pdfs_2025-01-01/rmrb_2025-01-01_01.pdf";
            "temp_pdfs_2025-01-01/rmrb_2025-01-01_03.pdf"]).
  vm_compute; reflexivity.
Defined.

(** X8. A download whose file was opened but whose write failed leaves
    the file behind: it exists when [download_pdfs] returns, yet it is
    not among the files returned, which are the only ones
    [download_rmrb_pdf] later hands to [clean_temp_files]. *)
Theorem failed_write_leaves_file {Page} (env : Env Page)
    (pdf_urls : list string) (date_str : string) (w : World)
    (files : list string) (w' : World) (i : nat) (url : string)
    (r : Response) (e : error) :
  download_pdfs env pdf_urls date_str w = (Ok files, w') ->
  pdf_urls !! i = Some url ->
  http env (PdfGet i) url = Ok r ->
  os_fault env (OpenTemp i) = None ->
  os_fault env (WriteTemp i) = Some e ->
  let f := temp_file (temp_dir_of date_str) date_str i in
  is_Some (fs w' !! f) /\ f ∉ files.
Proof.
  intros Hrun Hi Hr Ho Hw f. apply download_pdfs_ok in Hrun as [-> ->]. split.
  - assert (forall urls start w0 k,
              urls !! k = Some url ->
              http env (PdfGet (start + k)) url = Ok r ->
              os_fault env (OpenTemp (start + k)) = None ->
              os_fault env (WriteTemp (start + k)) = Some e ->
              is_Some (fs (download_loop_world env (temp_dir_of date_str) date_str
                             start urls w0)
                       !! temp_file (temp_dir_of date_str) date_str (start + k))) as H.
    { induction urls as [|u urls IH]; intros start w0 k Hk Hr' Ho' Hw'; [done|].
      rewrite download_loop_world_cons. destruct k as [|k].
      - injection Hk as ->. rewrite Nat.add_0_r in *.
        rewrite download_loop_fs_other.
        + unfold download_world, download_fs. cbn [fs]. cbv zeta.
          rewrite Hr', Ho', Hw'. rewrite lookup_insert_eq. by eexists.
        + intros j Hj Heq%temp_file_inj. lia.
      - replace (start + S k) with (S start + k) in * by lia. by apply IH. }
    by apply (H pdf_urls 0 _ i).
  - intros (k & url' & r' & Hk & Hok & Heq)%elem_of_download_names.
    apply temp_file_inj in Heq. cbn [Nat.add] in *. subst k.
    rewrite Hi in Hk. injection Hk as <-.
    unfold download_ok in Hok. by rewrite Hr, Ho, Hw in Hok.
Qed.

Lemma failed_write_leaves_file_witness :
  let env := toy (fun _ => false) (fun _ => false)
               (fun c => match c with
                         | WriteTemp 0 => Some (Exception "OSError")
                         | _ => None
                         end) in
  let run := download_pdfs env ["a"; "b"] "2025-01-01" empty_world in
  is_Some (fs run.2 !! "temp_pdfs_2025-01-01/rmrb_2025-01-01_01.pdf")
  /\ "temp_pdfs_2025-01-01/rmrb_2025-01-01_01.pdf"
     ∉ ["temp_pdfs_2025-01-01/rmrb_2025-01-01_02.pdf"].
Proof.
  intros env run.
  apply (failed_write_leaves_file env ["a"; "b"] "2025-01-01" empty_world
           ["temp_pdfs_2025-01-01/rmrb_2025-01-01_02.pdf"] run.2 0 "a"
           {| text := ""; content := list_byte_of_string "a" |} (Exception "OSError"));
    reflexivity.
Defined.

(** *** The links the locator returns *)

Lemma normalize_href_absolute base_url year month day h :
  startswith "http" base_url = true ->
  startswith "http" (normalize_href base_url year month day h) = true.
Proof.
  intros Hb. unfold normalize_href, layout_dir.
  destruct (startswith "http" h) eqn:Hh; cbn [negb]; [done|].
  destruct (startswith "/" h);
    [by apply startswith_append_l | by do 2 apply startswith_append_l].
Qed.

Lemma elem_of_omap_located {Page} (env : Env Page) base_url year month day
    (pages : list nat) u :
  u ∈ omap (located env base_url year month day) pages ->
  exists h, u = normalize_href base_url year month day h.
Proof.
  intros (i & _ & Hloc)%list_elem_of_omap. unfold located in Hloc.
  destruct (http env (PageGet i) _) as [r|]; [|done].
  destruct (html_parser env (text r)) as [soup|]; [|done].
  destruct (find is_pdf_link soup) as [a|]; [|done].
  injection Hloc as <-. by eexists.
Qed.

(** X9. With a base URL that starts with [http], every link
    [get_pdf_urls] returns starts with [http], whatever the pages hold;
    and normalizing such a link again changes nothing. *)
Theorem get_pdf_urls_absolute {Page} (env : Env Page)
    (base_url date_str : string) (w : World) (pdf_urls : list string) (w' : World) :
  startswith "http" base_url = true ->
  get_pdf_urls env base_url date_str w = (Ok pdf_urls, w') ->
  Forall (fun u => startswith "http" u = true) pdf_urls
  /\ forall year month day h,
       let u := normalize_href base_url year month day h in
       normalize_href base_url year month day u = u.
Proof.
  intros Hb Hrun. split.
  - destruct (split "-" date_str) as [|y [|m [|d [|x rest]]]] eqn:Hd;
      try (unfold get_pdf_urls in Hrun; rewrite Hd in Hrun; discriminate Hrun).
    rewrite (get_pdf_urls_run env base_url date_str y m d w Hd) in Hrun.
    injection Hrun as <- _. apply Forall_forall. intros u Hu.
    apply elem_of_omap_located in Hu as [h ->].
    by apply normalize_href_absolute.
  - intros year month day h u. subst u.
    pose proof (normalize_href_absolute base_url year month day h Hb) as Habs.
    unfold normalize_href at 1. by rewrite Habs.
Qed.

Lemma get_pdf_urls_absolute_witness :
  Forall (fun u => startswith "http" u = true)
    ["https://paper.people.com.cn/rmrb/pc/layout/202501/01/news.pdf";
     "https://paper.people.com.cn/rmrb/pc/layout/202501/01/news.pdf"].
Proof.
  apply (get_pdf_urls_absolute flaky default_base_url "2025-01-01" empty_world _
           (get_pdf_urls flaky default_base_url "2025-01-01" empty_world).2 eq_refl).
  vm_compute; reflexivity.
Defined.

(** *** The merger and the files *)








Lemma add_pages_until_error {Page} (ps : list Page) (e : error) (rest : list (exn Page)) :
  add_pages ((Ok <$> ps) ++ Raise e :: rest) [] = (ps, Some e).
Proof.
  induction ps as [|p ps IH]; [reflexivity|].
  rewrite fmap_cons. cbn [app add_pages]. rewrite add_pages_app, IH. reflexivity.
Qed.

(** X11. A file that opens as a PDF but whose page number k+1 raises
    gives the merged document its first k pages: they were added before
    the exception, the rest of the file is dropped, the failure is
    printed and the files after it are merged as usual. *)
Theorem partial_read_keeps_first_pages {Page} (env : Env Page)
    (j : nat) (pdf_file : string) (files : list string)
    (pdf_writer : list Page) (w : World)
    (data : list Byte.byte) (ps : list Page) (e : error) (rest : list (exn Page)) :
  os_fault env (ReadPdf j) = None ->
  fs w !! pdf_file = Some data ->
  pdf_parse env data = Ok ((Ok <$> ps) ++ Raise e :: rest) ->
  merge_one env j pdf_file pdf_writer w
  = (Ok (pdf_writer ++ ps),
     with_events w [EvPdfRead pdf_file; EvPrint (MsgReadFailed pdf_file e)])
  /\ merged_pages env (fs w) j (pdf_file :: files)
     = ps ++ merged_pages env (fs w) (S j) files.
Proof.
  intros Hos Hfs Hparse.
  assert (pages_read env (fs w) j pdf_file = ps) as Hpages.
  { unfold pages_read, read_outcome.
    by rewrite Hos, Hfs, Hparse, add_pages_until_error. }
  split.
  - rewrite merge_one_run, Hpages. unfold read_events, read_error, read_outcome.
    by rewrite Hos, Hfs, Hparse, add_pages_until_error.
  - by rewrite merged_pages_cons, Hpages.
Qed.

Lemma partial_read_keeps_first_pages_witness :
  let env := {| http := http no_pdf_parses; html_parser := html_parser no_pdf_parses;
                os_fault := os_fault no_pdf_parses;
                pdf_parse := fun _ => Ok [Ok tt; Ok tt; Raise (Exception "PdfReadError");
                                          Ok tt];
                pdf_serialize := pdf_serialize no_pdf_parses;
                today := today no_pdf_parses |} in
  (merge_one env 0 "a.pdf" [] two_files).1 = Ok [tt; tt].
Proof.
  intros env.
  destruct (partial_read_keeps_first_pages env 0 "a.pdf" [] [] two_files [Byte.x00]
              [tt; tt] (Exception "PdfReadError") [Ok tt] eq_refl eq_refl eq_refl)
    as [H _].
  by rewrite H.
Defined.

(** *** After a successful run *)

Lemma output_is_no_temp_file d d' i :
  output_file_of d <> temp_file (temp_dir_of d') d' i.
Proof.
  unfold output_file_of, temp_file, temp_dir_of.
  change ("storage/downloads/rmrb/rmrb_" +:+ ?s)
    with (String "s" ("torage/downloads/rmrb/rmrb_" +:+ s)).
  rewrite append_assoc.
  change ("temp_pdfs_" +:+ ?s) with (String "t" ("emp_pdfs_" +:+ s)).
  discriminate.
Qed.

(** X12. When nothing is refused on removal, a date has no slash,
    [merge_pdfs] has returned [True] and the temporary directory holds
    nothing but the downloaded files, [download_rmrb_pdf] returns the
    output path and leaves the merged document in the output file (the
    clean-up does not touch it), none of the downloaded temporary files,
    and no temporary directory. *)
Theorem successful_run_leaves_only_output {Page} (env : Env Page)
    (date_str : option string) (base_url : string) (w0 : World)
    (pdf_urls : list string) (w1 : World) (files : list string) (w2 w3 : World) :
  let d := date_of env date_str in
  count_char "/" d = 0 ->
  (forall j, os_fault env (Remove j) = None) ->
  os_fault env Rmdir = None ->
  get_pdf_urls env base_url d (with_events w0 [EvPrint (MsgStart d)])
  = (Ok pdf_urls, w1) ->
  pdf_urls <> [] ->
  download_pdfs env pdf_urls d w1 = (Ok files, w2) ->
  files <> [] ->
  merge_pdfs env files (output_file_of d) w2 = (Ok true, w3) ->
  set_Forall (fun p => startswith (temp_dir_of d +:+ "/") p = true -> p ∈ files)
    (dom (fs w3)) ->
  set_Forall (fun p => startswith (temp_dir_of d +:+ "/") p = false) (dirs w3) ->
  exists w5 data,
    download_rmrb_pdf env date_str base_url w0 = (Ok (Some (output_file_of d)), w5)
    /\ pdf_serialize env (expected_pages env 0 0 pdf_urls) = Ok data
    /\ fs w5 !! output_file_of d = Some data
    /\ (forall f, f ∈ files -> fs w5 !! f = None)
    /\ temp_dir_of d ∉ dirs w5.
Proof.
  intros d Hslash Hrm Hrmdir Hget Hurls Hdl Hfiles Hmerge Hinside Hnodirs.
  pose proof (download_rmrb_pdf_after_merge env date_str base_url w0 pdf_urls w1
                files w2 true w3 Hget Hurls Hdl Hfiles Hmerge) as Hrun.
  fold d in Hrun. cbv iota in Hrun.
  pose proof Hdl as Hdl'. apply download_pdfs_ok in Hdl' as [Hnames Hw2].
  (* the output after the merge *)
  destruct (merge_pdfs_run env files (output_file_of d) w2) as (w3' & Hm & _ & Hout).
  rewrite Hmerge in Hm. injection Hm as Hb <-. symmetry in Hb.
  apply bool_decide_eq_true in Hb as [data Hdata].
  assert (merged_pages env (fs w2) 0 files = expected_pages env 0 0 pdf_urls) as Hdoc.
  { rewrite Hnames, Hw2. apply merged_pages_expected. }
  rewrite Hdoc in Hdata.
  assert (pdf_serialize env (expected_pages env 0 0 pdf_urls) = Ok data) as Hser.
  { unfold output_written in Hdata.
    destruct (os_fault env OpenOut); [done|].
    destruct (pdf_serialize env _); [|done].
    destruct (os_fault env WriteOut); [done|]. congruence. }
  assert (output_file_of d ∉ files) as Hnot.
  { rewrite Hnames. intros (k & url & r & _ & _ & Heq)%elem_of_download_names.
    by apply output_is_no_temp_file in Heq. }
  eexists _, data. split; [exact Hrun|]. split; [exact Hser|].
  cbn [with_events fs dirs]. unfold clean_world.
  rewrite remove_dir_world_fs. split; [|split].
  - rewrite remove_loop_other by done. apply Hout. by rewrite Hdoc.
  - intros f Hf. by apply remove_loop_removes.
  - destruct files as [|f files']; [done|].
    assert (dirname f = temp_dir_of d) as Hdir.
    { assert (f ∈ f :: files') as Hin by (apply elem_of_cons; by left).
      rewrite Hnames in Hin.
      apply elem_of_download_names in Hin as (k & url & r & _ & _ & ->).
      by apply dirname_temp_file. }
    set (w4 := fold_enum (remove_world env) 0 (f :: files') w3).
    assert (dirs w4 = dirs w3) as Hdirs by apply remove_loop_dirs.
    assert (dir_is_empty (fs w4) (dirs w4) (temp_dir_of d) = true) as Hempty.
    { apply bool_decide_eq_true. intros p Hp.
      apply elem_of_union in Hp as [Hp|Hp].
      - destruct (startswith (temp_dir_of d +:+ "/") p) eqn:Hunder; [|done].
        apply elem_of_dom in Hp. unfold w4 in Hp.
        assert (is_Some (fs w3 !! p)) as Hp3.
        { destruct (fs w3 !! p) eqn:E; [by eexists|].
          rewrite (remove_loop_gone env (f :: files') 0 w3 p E) in Hp.
          by destruct Hp. }
        apply elem_of_dom in Hp3. specialize (Hinside p Hp3 Hunder).
        rewrite (remove_loop_removes env (f :: files') 0 w3 p Hrm Hinside) in Hp.
        by destruct Hp.
      - rewrite Hdirs in Hp. by apply Hnodirs. }
    unfold remove_dir_world, rmdir_failure. cbv zeta. rewrite Hdir, Hrmdir, Hempty.
    destruct (bool_decide (temp_dir_of d ∈ dirs w4)) eqn:Hin; cbn [negb dirs with_events].
    + rewrite elem_of_difference. intros [_ Hn]. apply Hn. by apply elem_of_singleton.
    + by apply bool_decide_eq_false in Hin.
Qed.

Lemma successful_run_leaves_only_output_witness :
  let run := download_rmrb_pdf second_fails None "B" empty_world in
  run.1 = Ok (Some "storage/downloads/rmrb/rmrb_2025-01-01.pdf")
  /\ is_Some (fs run.2 !! "storage/downloads/rmrb/rmrb_2025-01-01.pdf")
  /\ fs run.2 !! "temp_pdfs_2025-01-01/rmrb_2025-01-01_01.pdf" = None
  /\ "temp_pdfs_2025-01-01" ∉ dirs run.2.
Proof.
  set (urls := ["B/rmrb/pc/layout/202501/01/news.pdf";
                "B/rmrb/pc/layout/202501/01/news.pdf";
                "B/rmrb/pc/layout/202501/01/news.pdf"]).
  set (w1 := (get_pdf_urls second_fails "B" "2025-01-01"
                (with_events empty_world [EvPrint (MsgStart "2025-01-01")])).2).
  set (files := ["temp_pdfs_2025-01-01/rmrb_2025-01-01_01.pdf";
                 "temp_pdfs_2025-01-01/rmrb_2025-01-01_03.pdf"]).
  set (w2 := (download_pdfs second_fails urls "2025-01-01" w1).2).
  set (w3 := (merge_pdfs second_fails files (output_file_of "2025-01-01") w2).2).
  destruct (successful_run_leaves_only_output second_fails None "B" empty_world
              urls w1 files w2 w3
              eq_refl (fun _ => eq_refl) eq_refl
              ltac:(vm_compute; reflexivity) ltac:(discriminate)
              ltac:(vm_compute; reflexivity) ltac:(discriminate)
              ltac:(vm_compute; reflexivity)
              ltac:(match goal with
                    | |- ?P => apply (@bool_decide_unpack P _)
                    end; vm_compute; exact I)
              ltac:(match goal with
                    | |- ?P => apply (@bool_decide_unpack P _)
                    end; vm_compute; exact I))
    as (w5 & data & Hrun & _ & Hout & Hgone & Hdir).
  intros run. subst run. rewrite Hrun. cbn [fst snd].
  split; [reflexivity|]. split; [by eexists|]. split; [|exact Hdir].
  apply Hgone. apply elem_of_cons. by left.
Defined.

End RmrbDownMore.

(** ** note_for_rmrb.py: further properties *)

Module NoteForRmrbMore.
Import NoteForRmrb PyFacts NoteForRmrbFacts.

(** *** read_pdf *)

Lemma page_texts_first_error (texts : list (option string)) (e : error)
    (rest : list PageObject) :
  page_texts ((page_of <$> texts) ++ {| extract_text := Raise e |} :: rest) = Raise e.
Proof.
  induction texts as [|t texts IH]; [reflexivity|].
  rewrite fmap_cons. cbn [app page_texts page_of extract_text]. by rewrite IH.
Qed.

(** X13. [read_pdf] gives no partial text: when [PdfReader] raises it
    raises the same exception, and when the pages before some page
    extract and that page raises, it raises that page's exception,
    whatever the pages after it would give. *)
Theorem read_pdf_propagates_first_error (e : error) :
  read_pdf (Raise e) = Raise e
  /\ forall (texts : list (option string)) (rest : list PageObject),
       read_pdf (Ok ((page_of <$> texts) ++ {| extract_text := Raise e |} :: rest))
       = Raise e.
Proof.
  split; [reflexivity|]. intros texts rest.
  unfold read_pdf. by rewrite page_texts_first_error.
Qed.

Lemma join_app sep (xs ys : list string) :
  xs <> [] -> ys <> [] ->
  join sep (xs ++ ys) = join sep xs +:+ sep +:+ join sep ys.
Proof.
  intros Hx Hy. induction xs as [|x xs IH]; [done|].
  destruct xs as [|x' xs].
  - destruct ys as [|y ys]; [done|]. reflexivity.
  - change (join sep ((x :: x' :: xs) ++ ys))
      with (x +:+ sep +:+ join sep ((x' :: xs) ++ ys)).
    rewrite IH by done.
    change (join sep (x :: x' :: xs)) with (x +:+ sep +:+ join sep (x' :: xs)).
    by rewrite !append_assoc.
Qed.

Lemma page_texts_app (ps qs : list PageObject) (xs ys : list string) :
  page_texts ps = Ok xs -> page_texts qs = Ok ys ->
  page_texts (ps ++ qs) = Ok (xs ++ ys).
Proof.
  revert xs. induction ps as [|p ps IH]; intros xs Hp Hq.
  - by injection Hp as <-.
  - cbn [app page_texts] in *. destruct (extract_text p) as [t|]; [|done].
    destruct (page_texts ps) as [ts|]; [|done]. injection Hp as <-.
    by rewrite (IH ts eq_refl Hq).
Qed.

Lemma page_texts_length (ps : list PageObject) (xs : list string) :
  page_texts ps = Ok xs -> length xs = length ps.
Proof.
  revert xs. induction ps as [|p ps IH]; intros xs H.
  - by injection H as <-.
  - cbn [page_texts] in H. destruct (extract_text p); [|done].
    destruct (page_texts ps) as [ts|]; [|done]. injection H as <-.
    cbn. by rewrite (IH ts).
Qed.

(** X14. The text of a PDF made of the pages of one PDF followed by the
    pages of another, as [merge_pdfs] makes it, is the text of the first,
    a newline, and the text of the second, when neither is empty; an
    empty PDF gives the empty string and adds nothing. *)
Theorem read_pdf_of_concatenation (ps qs : list PageObject) (a b : string) :
  read_pdf (Ok ps) = Ok a ->
  read_pdf (Ok qs) = Ok b ->
  read_pdf (Ok []) = Ok ""
  /\ (ps <> [] -> qs <> [] -> read_pdf (Ok (ps ++ qs)) = Ok (a +:+ NL +:+ b))
  /\ (qs = [] -> read_pdf (Ok (ps ++ qs)) = Ok a)
  /\ (ps = [] -> read_pdf (Ok (ps ++ qs)) = Ok b).
Proof.
  unfold read_pdf. intros Ha Hb.
  destruct (page_texts ps) as [xs|] eqn:Hp; [|done].
  destruct (page_texts qs) as [ys|] eqn:Hq; [|done].
  injection Ha as <-. injection Hb as <-.
  split; [reflexivity|]. split; [|split].
  - intros Hps Hqs. rewrite (page_texts_app ps qs xs ys Hp Hq).
    rewrite join_app; [done| |].
    + apply page_texts_length in Hp. by destruct xs, ps.
    + apply page_texts_length in Hq. by destruct ys, qs.
  - intros ->. by rewrite app_nil_r, Hp.
  - intros ->. cbn [app]. by rewrite Hq.
Qed.

Lemma read_pdf_of_concatenation_witness :
  read_pdf (Ok ((page_of <$> [Some "a"; None]) ++ (page_of <$> [Some "c"])))
  = Ok (("a" +:+ NL +:+ "") +:+ NL +:+ "c").
Proof.
  assert (read_pdf (Ok (page_of <$> [Some "a"; None])) = Ok ("a" +:+ NL +:+ "")) as Ha
    by reflexivity.
  assert (read_pdf (Ok (page_of <$> [Some "c"])) = Ok "c") as Hc by reflexivity.
  destruct (read_pdf_of_concatenation _ _ _ _ Ha Hc) as (_ & H & _).
  apply H; discriminate.
Defined.

(** *** extract_info *)

Lemma foldl_step_stdout chunks st :
  stdout (foldl step st chunks) = stdout st ++ stdout (foldl step init chunks).
Proof.
  revert st. induction chunks as [|chunk chunks IH]; intros st.
  - cbn. by rewrite app_nil_r.
  - cbn [foldl]. rewrite IH, (IH (step init chunk)), app_assoc. f_equal.
    unfold step. destruct (choices chunk) as [[|choice others]|];
      cbn; rewrite ?app_nil_r; try done.
    destruct (truthy (reasoning_content (delta choice))); [done|].
    destruct (truthy (content (delta choice))); cbn; by rewrite ?app_nil_r.
Qed.

Lemma run_app xs ys :
  stdout (run (xs ++ ys)) = stdout (run xs) ++ stdout (run ys)
  /\ mycontent (run (xs ++ ys)) = mycontent (run xs) +:+ mycontent (run ys).
Proof.
  split.
  - unfold run. by rewrite foldl_app, foldl_step_stdout.
  - unfold run.
    rewrite foldl_app, (foldl_step_mycontent ys (foldl step init xs)),
      (foldl_step_mycontent ys init).
    reflexivity.
Qed.

(** X15. The loop of [extract_info] keeps nothing but its accumulator
    from one chunk to the next: for a stream made of two parts, what is
    printed is what is printed for the first part followed by what is
    printed for the second, and the text returned is the text returned
    for the first followed by the text returned for the second. *)
Theorem extract_info_of_concatenation (xs ys : list Chunk) :
  stdout (run (xs ++ ys)) = stdout (run xs) ++ stdout (run ys)
  /\ mycontent (run (xs ++ ys)) = mycontent (run xs) +:+ mycontent (run ys)
  /\ forall a b,
       extract_info (Ok (xs, EndOfStream)) = Ok a ->
       extract_info (Ok (ys, EndOfStream)) = Ok b ->
       extract_info (Ok (xs ++ ys, EndOfStream)) = Ok (a +:+ b).
Proof.
  destruct (run_app xs ys) as [Hout Hacc].
  split; [done|split; [done|]].
  intros a b [= <-] [= <-]. cbn [extract_info]. by rewrite Hacc.
Qed.

Lemma extract_info_of_concatenation_witness :
  extract_info (Ok ([reasoning "r"; answer "Hello"] ++ [answer " world"], EndOfStream))
  = Ok ("Hello" +:+ " world").
Proof.
  destruct (extract_info_of_concatenation [reasoning "r"; answer "Hello"]
              [answer " world"]) as (_ & _ & H).
  apply H; reflexivity.
Defined.

(** X16. What reaches the accumulator has been printed: in stream
    order, the pieces printed for chunks without reasoning content are
    exactly the pieces of the returned text; so for a stream in which no
    chunk carries reasoning content, the text returned is the
    concatenation of everything printed. *)
Theorem extract_info_printed_and_returned (chunks : list Chunk) :
  (forall chunk, chunk ∈ chunks -> carries_reasoning chunk = false) ->
  concat_str (stdout (run chunks)) = mycontent (run chunks).
Proof.
  intros Hno. induction chunks as [|chunk chunks IH] using rev_ind; [reflexivity|].
  destruct (run_app chunks [chunk]) as [-> ->].
  assert (forall xs ys, concat_str (xs ++ ys) = concat_str xs +:+ concat_str ys) as Happ.
  { intros xs ys. induction xs as [|x xs IHx]; [done|].
    cbn [app concat_str foldr] in *. unfold concat_str in *. cbn [foldr].
    by rewrite IHx, append_assoc. }
  rewrite Happ, IH by (intros c Hc; apply Hno, elem_of_app; by left). f_equal.
  assert (carries_reasoning chunk = false) as Hc
    by (apply Hno, elem_of_app; right; by apply list_elem_of_singleton).
  unfold run, carries_reasoning in *. cbn [foldl]. unfold step.
  destruct (choices chunk) as [[|choice others]|]; try reflexivity.
  cbv zeta. rewrite Hc.
  destruct (truthy (content (delta choice))); [|reflexivity].
  cbn. by rewrite append_nil_r.
Qed.

Lemma extract_info_printed_and_returned_witness :
  concat_str (stdout (run [answer "Hello"; answer " world"])) = "Hello world".
Proof.
  rewrite (extract_info_printed_and_returned [answer "Hello"; answer " world"]).
  - reflexivity.
  - intros chunk Hin. apply elem_of_cons in Hin as [->|Hin]; [reflexivity|].
    apply elem_of_cons in Hin as [->|Hin]; [reflexivity|]. by apply elem_of_nil in Hin.
Defined.

(** *** main *)

Lemma handle_not_saved rmrb_pdf_file e o : o ∈ handle rmrb_pdf_file e -> o <> OutAnalysed.
Proof.
  destruct e; cbn [handle]; intros Ho;
    repeat (apply elem_of_cons in Ho as [->|Ho]; [discriminate|]);
    by apply elem_of_nil in Ho.
Qed.

(** X17. [main] writes a report exactly when the PDF was read, the
    service answered with a stream that ended normally and the block that
    saves the report completed: the file is then named after the date
    taken inside [main], not after the date the PDF was looked up by, its
    text is the returned analysis followed by one newline, and the last
    thing printed names the file.  In every other case no report is
    written and the last thing printed is the hint of one of the two
    handlers. *)
Theorem main_report (env : NoteEnv) :
  let r := main env in
  (forall f t,
     report r = Some (f, t) <->
     exists text chunks,
       read_pdf (open_pdf env ("rmrb_" +:+ date_str env +:+ ".pdf")) = Ok text
       /\ chat env text = Ok (chunks, EndOfStream)
       /\ f = "人民日报_" +:+ current_date env +:+ ".md"
       /\ t = mycontent (run chunks) +:+ NL
       /\ save_report env f t = None)
  /\ (forall f t, report r = Some (f, t) -> last (printed r) = Some (OutSaved f))
  /\ (report r = None ->
      last (printed r) = Some OutNamingHint \/ last (printed r) = Some OutCheckHint).
Proof.
  cbv zeta. unfold main, rmrb_pdf_file_of, output_filename_of.
  set (pdf := "rmrb_" +:+ date_str env +:+ ".pdf").
  set (out := "人民日报_" +:+ current_date env +:+ ".md").
  assert (forall xs e, last (xs ++ handle pdf e) = Some OutNamingHint
                       \/ last (xs ++ handle pdf e) = Some OutCheckHint) as Hh.
  { intros xs [path|msg]; cbn [handle]; rewrite last_app_cons; cbn; by eauto. }
  destruct (read_pdf (open_pdf env pdf)) as [text|e] eqn:Hread.
  2:{ cbn [report printed]. split; [|split; [done|]].
      - intros f t. split; [done|]. by intros (text & chunks & [=] & _).
      - intros _. apply (Hh [OutReading pdf] e). }
  destruct (chat env text) as [[chunks [|e]]|e] eqn:Hchat; cbn [extract_info].
  - destruct (save_report env out (mycontent (run chunks) +:+ NL)) as [e|] eqn:Hsave;
      cbn [report printed].
    + split; [|split; [done|]].
      * intros f t. split; [done|].
        intros (text' & chunks' & [= <-] & Hc & -> & -> & Hs).
        rewrite Hchat in Hc. injection Hc as <-. congruence.
      * intros _. rewrite (cons_middle OutAnalysed), app_assoc. apply Hh.
    + split; [|split; [|done]].
      * intros f t. split.
        -- intros [= <- <-]. by exists text, chunks.
        -- intros (text' & chunks' & [= <-] & Hc & -> & -> & _).
           rewrite Hchat in Hc. by injection Hc as <-.
      * intros f t [= <- <-].
        by rewrite last_app_cons.
  - cbn [report printed]. split; [|split; [done|]].
    + intros f t. split; [done|].
      intros (text' & chunks' & [= <-] & Hc & _). rewrite Hchat in Hc. discriminate.
    + intros _. apply Hh.
  - cbn [report printed]. split; [|split; [done|]].
    + intros f t. split; [done|].
      intros (text' & chunks' & [= <-] & Hc & _). rewrite Hchat in Hc. discriminate.
    + intros _. apply Hh.
Qed.

Lemma main_report_witness :
  report (main (note_env EndOfStream None))
  = Some ("人民日报_2025-01-02.md", "Hello world" +:+ NL)
  /\ last (printed (main (note_env EndOfStream None)))
     = Some (OutSaved "人民日报_2025-01-02.md").
Proof.
  destruct (main_report (note_env EndOfStream None)) as (Hiff & Hlast & _).
  assert (report (main (note_env EndOfStream None))
          = Some ("人民日报_2025-01-02.md", "Hello world" +:+ NL)) as Hrep.
  { apply Hiff. exists "news", [answer "Hello"; answer " world"].
    repeat split; reflexivity. }
  split; [exact Hrep|]. by apply Hlast in Hrep.
Defined.

(** X18. The first handler of [main] answers to any [FileNotFoundError]
    raised inside the [try], not only to a missing PDF: when the PDF was
    read and the exception comes from the service, from its stream or
    from saving the report, [main] still ends by printing that the PDF
    is not found, after having printed that its text was extracted; and
    what the service streamed before has been printed and is lost. *)
Theorem main_file_not_found_message (env : NoteEnv) (text path : string) :
  let pdf := "rmrb_" +:+ date_str env +:+ ".pdf" in
  let out := "人民日报_" +:+ current_date env +:+ ".md" in
  read_pdf (open_pdf env pdf) = Ok text ->
  extract_info (chat env text) = Raise (FileNotFoundError path)
  \/ (exists note, extract_info (chat env text) = Ok note
                   /\ save_report env out (note +:+ NL) = Some (FileNotFoundError path)) ->
  let r := main env in
  report r = None
  /\ (exists before, printed r = [OutReading pdf; OutExtracted text; OutAnalysing]
                                 ++ streamed (chat env text) ++ before
                                 ++ [OutNotFound pdf; OutNamingHint])
  /\ OutSaved out ∉ printed r.
Proof.
  cbv zeta. unfold main, rmrb_pdf_file_of, output_filename_of.
  set (pdf := "rmrb_" +:+ date_str env +:+ ".pdf").
  set (out := "人民日报_" +:+ current_date env +:+ ".md").
  intros -> Hfail.
  assert (forall xs, OutSaved out ∉ [OutReading pdf; OutExtracted text; OutAnalysing]
                                     ++ streamed (chat env text) ++ xs
                                     ++ [OutNotFound pdf; OutNamingHint]
                     <-> OutSaved out ∉ xs) as Hnot.
  { intros xs. rewrite !not_elem_of_app. split; [tauto|]. intros Hxs.
    split; [|split; [|split; [done|]]].
    - intros Hin. repeat (apply elem_of_cons in Hin as [[=]|Hin]).
      by apply elem_of_nil in Hin.
    - unfold streamed. destruct (chat env text) as [[chunks ?]|]; [|apply not_elem_of_nil].
      intros Hin. apply list_elem_of_fmap in Hin as (? & [=] & _).
    - intros Hin. repeat (apply elem_of_cons in Hin as [[=]|Hin]).
      by apply elem_of_nil in Hin. }
  destruct Hfail as [Hx|(note & Hx & Hs)]; rewrite Hx.
  - cbn [report printed handle]. split; [done|]. split.
    + exists []. by rewrite <- !app_assoc.
    + rewrite <- app_assoc. apply (Hnot []). apply not_elem_of_nil.
  - rewrite Hs. cbn [report printed handle]. split; [done|]. split.
    + exists [OutAnalysed]. by rewrite <- !app_assoc.
    + rewrite <- app_assoc. apply (Hnot [OutAnalysed]).
      intros Hin. apply elem_of_cons in Hin as [[=]|Hin]. by apply elem_of_nil in Hin.
Qed.

Lemma main_file_not_found_message_witness :
  let env := note_env EndOfStream (Some (FileNotFoundError "reports")) in
  printed (main env)
  = [OutReading "rmrb_2025-01-01.pdf"; OutExtracted "news"; OutAnalysing;
     OutStream "Hello"; OutStream " world"; OutAnalysed;
     OutNotFound "rmrb_2025-01-01.pdf"; OutNamingHint]
  /\ report (main env) = None.
Proof.
  intros env.
  destruct (main_file_not_found_message env "news" "reports" eq_refl) as (Hrep & _ & _).
  { right. exists "Hello world". split; reflexivity. }
  split; [reflexivity|exact Hrep].
Defined.

End NoteForRmrbMore.
